(** * HMSErrorModal: the HMS error code formatter, lookup and link builder

    A shallow embedding of [frontend/src/components/HMSErrorModal.tsx].
    The component turns a pair (attr, code) reported by the printer into
    the sixteen hexadecimal digit HMS code, looks the code up in a static
    table of descriptions, builds a wiki link from it and classifies the
    severity of the error.

    JavaScript values are modelled as follows.
    - A [number] is NaN, an infinity, or a finite value, given as a
      rational (every finite double is one; the two zeros are identified,
      as no operation used here tells them apart).
    - The results of the 32-bit operators are integers, kept in [Z].
    - A string is a sequence of code units below 256 (the Latin-1 part
      of UTF-16), that is, a Rocq [string]. *)

From Stdlib Require Import ZArith QArith Bool List Lia.
From Stdlib Require Import Ascii String HexadecimalString HexadecimalZ.
From Stdlib Require Import HexadecimalPos.
From Stdlib Require DecimalString DecimalNat.
From stdpp Require Import gmap strings.

Local Open Scope string_scope.
Local Open Scope Z_scope.

(** ** Numbers and the 32-bit operators *)

Module JS.

Inductive number : Type :=
  | NaN
  | Infinity (negative : bool)
  | Finite (q : Q).

(** An integer literal, and more generally an integer-valued number. *)
Definition ofZ (z : Z) : number := Finite (inject_Z z).

(** [truncate] of the specification: rounding towards zero. *)
Definition truncate (q : Q) : Z := Z.quot (Qnum q) (Zpos (Qden q)).

(** The two's complement reading of the low 32 bits of an integer. *)
Definition int32 (z : Z) : Z :=
  let m := z mod 2 ^ 32 in
  if 2 ^ 31 <=? m then m - 2 ^ 32 else m.

(** ToInt32: NaN and the infinities go to 0, a finite number is
    truncated and reduced modulo 2^32 into the signed range. *)
Definition ToInt32 (x : number) : Z :=
  match x with
  | NaN | Infinity _ => 0
  | Finite q => int32 (truncate q)
  end.

(** ToUint32, used for the shift count. *)
Definition ToUint32 (x : number) : Z :=
  match x with
  | NaN | Infinity _ => 0
  | Finite q => truncate q mod 2 ^ 32
  end.

(** [x >> n]: sign-propagating shift of ToInt32 x by the low five bits
    of the count. *)
Definition sar (x n : number) : Z :=
  Z.shiftr (ToInt32 x) (Z.land (ToUint32 n) 31).

(** [x & y] on the ToInt32 images of both operands. *)
Definition band (x y : number) : Z :=
  int32 (Z.land (ToInt32 x) (ToInt32 y)).

(** Strict equality of two numbers, as the [switch] statement uses it. *)
Definition strict_eq (x y : number) : bool :=
  match x, y with
  | Finite p, Finite q => Qeq_bool p q
  | Infinity a, Infinity b => Bool.eqb a b
  | _, _ => false
  end.

(** Truthiness of a number: NaN and zero are falsy. *)
Definition truthy (x : number) : bool :=
  match x with
  | NaN => false
  | Infinity _ => true
  | Finite q => negb (Qeq_bool q 0)
  end.

(** [x || y] on numbers. *)
Definition or_else (x y : number) : number :=
  if truthy x then x else y.

(** ** Strings *)

(** [Number.prototype.toString(16)] on an integer-valued number:
    lower-case digits, no leading zero, a minus sign when negative. *)
Definition toString_16 (z : Z) : string :=
  NilZero.string_of_int (Z.to_hex_int z).

(** The filler of [padStart]: the pad string repeated and cut to
    [n] code units (empty when the pad string is empty). *)
Fixpoint filler (pad cur : string) (n : nat) : string :=
  match n with
  | O => ""
  | S n' =>
      match cur with
      | String c rest => String c (filler pad rest n')
      | EmptyString =>
          match pad with
          | String c rest => String c (filler pad rest n')
          | EmptyString => ""
          end
      end
  end.

Definition padStart (s : string) (targetLength : nat) (padString : string)
  : string :=
  let len := String.length s in
  if (targetLength <=? len)%nat then s
  else if String.eqb padString "" then s
  else filler padString padString (targetLength - len) ++ s.

Definition code_unit (c : ascii) : N := N_of_ascii c.

(** Upper-casing of one code unit.  This is the mapping of the ASCII
    letters; the component applies [toUpperCase] to hexadecimal digit
    strings only. *)
Definition upper_unit (c : ascii) : ascii :=
  let n := code_unit c in
  if ((97 <=? n) && (n <=? 122))%N then ascii_of_N (n - 32) else c.

Fixpoint toUpperCase (s : string) : string :=
  match s with
  | EmptyString => EmptyString
  | String c s' => String (upper_unit c) (toUpperCase s')
  end.

(** Lower-casing of one code unit below 256: the ASCII capitals and
    the Latin-1 capitals U+00C0..U+00DE, the multiplication sign
    U+00D7 apart, move up by 32; every other code unit is kept. *)
Definition lower_unit (c : ascii) : ascii :=
  let n := code_unit c in
  if ((65 <=? n) && (n <=? 90))%N then ascii_of_N (n + 32)
  else if ((192 <=? n) && (n <=? 222) && negb (n =? 215))%N
       then ascii_of_N (n + 32)
  else c.

Fixpoint toLowerCase (s : string) : string :=
  match s with
  | EmptyString => EmptyString
  | String c s' => String (lower_unit c) (toLowerCase s')
  end.

(** [s.startsWith(p)]. *)
Fixpoint startsWith (s p : string) : bool :=
  match p, s with
  | EmptyString, _ => true
  | String a p', String b s' => Ascii.eqb a b && startsWith s' p'
  | String _ _, EmptyString => false
  end.

(** [s.includes(p)]: some suffix of [s] starts with [p]. *)
Fixpoint includes (s p : string) : bool :=
  startsWith s p ||
  match s with
  | EmptyString => false
  | String _ s' => includes s' p
  end.

(** The suffix of [s] after its first [n] code units. *)
Fixpoint drop (n : nat) (s : string) : string :=
  match n, s with
  | O, _ => s
  | S n', String _ s' => drop n' s'
  | S _, EmptyString => EmptyString
  end.

(** [s.replace(pat, rep)] with a string pattern: the first occurrence
    of [pat], wherever it is, is replaced; [rep] holds no [$]. *)
Fixpoint replace (s pat rep : string) : string :=
  if startsWith s pat then rep ++ drop (String.length pat) s
  else match s with
       | EmptyString => EmptyString
       | String c s' => String c (replace s' pat rep)
       end.

(** [s.replace(/c/g, d)] for a one code unit pattern: every occurrence
    of [c] becomes [d]. *)
Fixpoint replaceAll (s : string) (c d : ascii) : string :=
  match s with
  | EmptyString => EmptyString
  | String x s' => String (if Ascii.eqb x c then d else x) (replaceAll s' c d)
  end.

(** *** parseInt *)

(** White space and line terminators below 256. *)
Definition isWhiteSpace (c : ascii) : bool :=
  let n := code_unit c in
  ((9 <=? n) && (n <=? 13) || (n =? 32) || (n =? 160))%N.

(** TrimString at the start. *)
Fixpoint trimStart (s : string) : string :=
  match s with
  | EmptyString => EmptyString
  | String c s' => if isWhiteSpace c then trimStart s' else s
  end.

(** The value of a digit in a radix up to 36: [0-9], then the letters
    of either case from 10 on. *)
Definition digitValue (c : ascii) : option Z :=
  let n := code_unit c in
  if ((48 <=? n) && (n <=? 57))%N then Some (Z.of_N n - 48)
  else if ((97 <=? n) && (n <=? 122))%N then Some (Z.of_N n - 87)
  else if ((65 <=? n) && (n <=? 90))%N then Some (Z.of_N n - 55)
  else None.

(** The digits of the longest prefix of [s] made of radix-[R] digits. *)
Fixpoint radixDigits (R : Z) (s : string) : list Z :=
  match s with
  | EmptyString => []
  | String c s' =>
      match digitValue c with
      | Some d => if d <? R then d :: radixDigits R s' else []
      | None => []
      end
  end.

(** The integer that a list of digits, most significant first, denotes. *)
Definition mathInt (R : Z) (ds : list Z) : Z :=
  fold_left (fun acc d => acc * R + d) ds 0.

(** The Number value of an integer: exact below 2^53, otherwise rounded
    to 53 significant bits, ties to even, and an infinity from 2^1024. *)
Definition toNumber (n : Z) : number :=
  let a := Z.abs n in
  if a <? 2 ^ 53 then ofZ n
  else
    let e := Z.log2 a - 52 in
    let q := Z.shiftr a e in
    let r := a - Z.shiftl q e in
    let half := 2 ^ (e - 1) in
    let q' := if (half <? r) || ((r =? half) && Z.odd q) then q + 1 else q in
    let v := Z.shiftl q' e in
    if 2 ^ 1024 <=? v then Infinity (n <? 0) else ofZ (Z.sgn n * v).

(** [parseInt(s, radix)].  For a radix that is not 2, 4, 8, 10, 16 or 32
    an engine may approximate a long digit string; the component calls it
    with 16 only, where the value is the exact integer, rounded once. *)
Definition parseInt (s : string) (radix : number) : number :=
  let s1 := trimStart s in
  let negative := startsWith s1 "-" in
  let s2 := if startsWith s1 "+" || startsWith s1 "-" then drop 1 s1 else s1 in
  let R := ToInt32 radix in
  if negb (R =? 0) && ((R <? 2) || (36 <? R)) then NaN
  else
    let stripPrefix := (R =? 0) || (R =? 16) in
    let R0 := if R =? 0 then 10 else R in
    let hasPrefix :=
      stripPrefix && (startsWith s2 "0x" || startsWith s2 "0X") in
    let s3 := if hasPrefix then drop 2 s2 else s2 in
    let R1 := if hasPrefix then 16 else R0 in
    match radixDigits R1 s3 with
    | [] => NaN
    | ds => toNumber ((if negative then -1 else 1) * mathInt R1 ds)
    end.

(** *** Property access on an object literal *)

(** What reading a property of a string-valued object literal yields:
    [undefined], one of its strings, or a member that it inherits from
    [Object.prototype] (a function or an object, never a string). *)
Inductive value : Type :=
  | undefined
  | str (s : string)
  | inherited (name : string).

(** The property names of an unmodified [Object.prototype]. *)
Definition Object_prototype_names : list string :=
  [ "constructor"; "__proto__"; "hasOwnProperty"; "isPrototypeOf";
    "propertyIsEnumerable"; "toLocaleString"; "toString"; "valueOf";
    "__defineGetter__"; "__defineSetter__"; "__lookupGetter__";
    "__lookupSetter__" ].

(** [o[k]]: an own property first, then the prototype. *)
Definition get (o : gmap string string) (k : string) : value :=
  match o !! k with
  | Some v => str v
  | None =>
      if existsb (String.eqb k) Object_prototype_names then inherited k
      else undefined
  end.

(** [v || d]: [undefined] and the empty string are falsy. *)
Definition value_or (v : value) (d : string) : value :=
  match v with
  | undefined => str d
  | str s => if String.eqb s "" then str d else v
  | inherited _ => v
  end.

End JS.

Import JS.

(** ** The formatter *)

(** One byte of the code: [((x >> shift) & 0xFF)] printed in base 16,
    padded to two digits and upper-cased. *)
Definition hexByte (x : number) (shift : Z) : string :=
  toUpperCase
    (padStart (toString_16 (band (ofZ (sar x (ofZ shift))) (ofZ 255))) 2 "0").

(** The lowest byte is taken without a shift: [(x & 0xFF)]. *)
Definition hexLowByte (x : number) : string :=
  toUpperCase (padStart (toString_16 (band x (ofZ 255))) 2 "0").

Definition getFullHMSCode (attr code : number) : string :=
  let a1 := hexByte attr 24 in
  let a2 := hexByte attr 16 in
  let a3 := hexByte attr 8 in
  let a4 := hexLowByte attr in
  let c1 := hexByte code 24 in
  let c2 := hexByte code 16 in
  let c3 := hexByte code 8 in
  let c4 := hexLowByte code in
  a1 ++ a2 ++ "_" ++ a3 ++ a4 ++ "_" ++ c1 ++ c2 ++ "_" ++ c3 ++ c4.

(** ** The static table of descriptions *)

Definition HMS_DESCRIPTIONS : gmap string string :=
  list_to_map
    [ ("0700_5500_0002_0001",
       "A binding error occurred between AMS and the extruder. Please perform AMS initialization again.");
      ("0500_0300_0002_000E",
       "Some modules are incompatible with the printer firmware version. Please update firmware.");
      ("0300_0100_0002_0054",
       "The heatbed temperature is abnormal. The sensor may be disconnected or damaged.");
      ("0500_0100_0005_0005", "Motor driver overheated. Let the printer cool down.");
      ("0500_0100_0005_0006", "Motor driver communication error.");
      ("0700_0100_0007_0001", "AMS communication error.");
      ("0700_0100_0007_0002", "AMS filament runout.");
      ("0700_0100_0007_0003", "AMS filament not detected.");
      ("0C00_0100_000C_0003", "First layer inspection failed.");
      ("0C00_0100_000C_0004", "Nozzle clog detected.");
      ("0C00_0100_000C_8000", "Foreign object detected on print bed.");
      ("0500_0100_0005_0000", "Motor X axis lost steps.");
      ("0500_0100_0005_0001", "Motor Y axis lost steps.");
      ("0500_0100_0005_0002", "Motor Z axis lost steps.") ].

Definition unknown_error : string :=
  "Unknown error. Click the link below for details.".

(** ** Severity *)

(** The icons of [lucide-react] that the component imports. *)
Inductive icon : Type := X | AlertTriangle | AlertCircle | Info | ExternalLink.

Record SeverityInfo : Type := mkSeverityInfo {
  label : string;
  color : string;
  bgColor : string;
  Icon : icon
}.

(** The [switch] compares with strict equality; [case 4] falls through
    to [default]. *)
Definition getSeverityInfo (severity : number) : SeverityInfo :=
  if strict_eq severity (ofZ 1) then
    mkSeverityInfo "Fatal" "text-red-500" "bg-red-500/20" AlertTriangle
  else if strict_eq severity (ofZ 2) then
    mkSeverityInfo "Serious" "text-red-400" "bg-red-500/15" AlertTriangle
  else if strict_eq severity (ofZ 3) then
    mkSeverityInfo "Warning" "text-orange-400" "bg-orange-500/20" AlertCircle
  else
    mkSeverityInfo "Info" "text-blue-400" "bg-blue-500/20" Info.

(** ** The wiki link *)

Definition getHMSWikiUrl (attr code : number) (printerName : string) : string :=
  let fullCode := getFullHMSCode attr code in
  let isH2 := includes (toLowerCase printerName) "h2" in
  let basePath := if isH2 then "h2" else "x1" in
  "https://wiki.bambulab.com/en/" ++ basePath
    ++ "/troubleshooting/hmscode/" ++ fullCode.

(** ** The modal *)

(** An error as the component reads it: [attr] and [severity] go where
    a number is expected, [code] is a string. *)
Record HMSError : Type := mkHMSError {
  attr : number;
  code : string;
  severity : number
}.

(** [parseInt(error.code.replace('0x', ''), 16) || 0] *)
Definition codeNum (error : HMSError) : number :=
  or_else (parseInt (replace (code error) "0x" "") (ofZ 16)) (ofZ 0).

(** What one entry of the list shows. *)
Record ErrorRow : Type := mkErrorRow {
  row_severity : SeverityInfo;
  fullHMSCode : string;
  description : value;
  wikiUrl : string;
  displayCode : string
}.

(** The body of [errors.map]. *)
Definition renderError (printerName : string) (error : HMSError) : ErrorRow :=
  let info := getSeverityInfo (severity error) in
  let codeNum := codeNum error in
  let fullHMSCode := getFullHMSCode (attr error) codeNum in
  let description := value_or (get HMS_DESCRIPTIONS fullHMSCode) unknown_error in
  let wikiUrl := getHMSWikiUrl (attr error) codeNum printerName in
  let displayCode := "HMS_" ++ replaceAll fullHMSCode "_" "-" in
  mkErrorRow info fullHMSCode description wikiUrl displayCode.

Inductive content : Type :=
  | NoErrors
  | ErrorList (rows : list ErrorRow).

Record view : Type := mkView {
  title : string;
  body : content
}.

Definition HMSErrorModal (printerName : string) (errors : list HMSError) : view :=
  mkView ("HMS Errors - " ++ printerName)
    (match errors with
     | [] => NoErrors
     | _ => ErrorList (map (renderError printerName) errors)
     end).

(** *** The keyboard handler *)

Record KeyboardEvent : Type := mkKeyboardEvent { key : string }.

(** The calls a handler makes, in order. *)
Inductive call : Type := OnClose.

(** [if (e.key === 'Escape') onClose();] *)
Definition handleKeyDown (e : KeyboardEvent) : list call :=
  if String.eqb (key e) "Escape" then [OnClose] else [].

(** The effect of a sequence of calls on whatever the callback acts on. *)
Definition run {World : Type} (onClose : World -> World) (calls : list call)
    (w : World) : World :=
  fold_left (fun w c => match c with OnClose => onClose w end) calls w.

(** ** The format of a code, as the specification words it *)

Module Format.

(** The unsigned 32-bit view of a number: the residue modulo 2^32 of its
    ToInt32 image. *)
Definition low32 (x : number) : Z := ToInt32 x mod 2 ^ 32.

(** The byte of an unsigned 32-bit value at position [i], position 3
    being the most significant one. *)
Definition byteAt (u i : Z) : Z := (u / 2 ^ (8 * i)) mod 256.

(** An upper-case hexadecimal digit. *)
Definition hexDigit (d : Z) : ascii :=
  match String.get (Z.to_nat d) "0123456789ABCDEF" with
  | Some c => c
  | None => "0"%char
  end.

(** A byte as two upper-case hexadecimal digits, zero-padded. *)
Definition hex2 (b : Z) : string :=
  String (hexDigit (b / 16)) (String (hexDigit (b mod 16)) "").

(** Two bytes of [u], the higher one first. *)
Definition group (u hi lo : Z) : string :=
  hex2 (byteAt u hi) ++ hex2 (byteAt u lo).

(** AAAA_BBBB_CCCC_DDDD *)
Definition formatted (attr code : Z) : string :=
  group attr 3 2 ++ "_" ++ group attr 1 0 ++ "_" ++
  group code 3 2 ++ "_" ++ group code 1 0.

(** [[0-9A-F]] *)
Definition isUpperHex (c : ascii) : bool :=
  let n := code_unit c in
  ((48 <=? n) && (n <=? 57) || (65 <=? n) && (n <=? 70))%N.

(** [k] characters of [[0-9A-F]] at the start of [s]; what follows them. *)
Fixpoint hexRun (k : nat) (s : string) : option string :=
  match k, s with
  | O, _ => Some s
  | S k', String c s' => if isUpperHex c then hexRun k' s' else None
  | S _, EmptyString => None
  end.

(** The whole string matches
    [[0-9A-F]{4}_[0-9A-F]{4}_[0-9A-F]{4}_[0-9A-F]{4}]. *)
Definition wellFormed (s : string) : bool :=
  match hexRun 4 s with
  | Some (String "_" s1) =>
      match hexRun 4 s1 with
      | Some (String "_" s2) =>
          match hexRun 4 s2 with
          | Some (String "_" s3) =>
              match hexRun 4 s3 with
              | Some EmptyString => true
              | _ => false
              end
          | _ => false
          end
      | _ => false
      end
  | _ => false
  end.

(** The device name holds an [h] of either case followed by a [2]. *)
Definition mentionsH2 (name : string) : Prop :=
  exists pre c post,
    name = pre ++ String c (String "2" post) /\ (c = "h"%char \/ c = "H"%char).

(** The name starts with an [h] of either case and a [2]. *)
Definition startsH2 (name : string) : bool :=
  match name with
  | String c (String d _) =>
      (Ascii.eqb c "h" || Ascii.eqb c "H") && Ascii.eqb d "2"
  | _ => false
  end.

(** [s'] is [s] without its first occurrence of ["0x"], or [s] itself
    when there is none. *)
Definition withoutFirst0x (s s' : string) : Prop :=
  (includes s "0x" = false /\ s' = s) \/
  (exists pre post,
     s = pre ++ "0x" ++ post /\ includes (pre ++ "0") "0x" = false /\
     s' = pre ++ post).

(** The reading of the code field as a hexadecimal string from which an
    optional ["0x"] prefix is taken off. *)
Definition stripPrefix0x (s : string) : string :=
  if startsWith s "0x" then drop 2 s else s.

Definition codeNumOfPrefixReading (error : HMSError) : number :=
  or_else (parseInt (stripPrefix0x (code error)) (ofZ 16)) (ofZ 0).

End Format.

Import Format.

(** ** Reading a formatted code back *)

Module Decode.

(** The value of a string of hexadecimal digits. *)
Definition hexValue (s : string) : Z := mathInt 16 (radixDigits 16 s).

(** The pair of 32-bit values that a formatted code stands for: the
    first two groups, and the last two. *)
Definition decodeHMSCode (s : string) : Z * Z :=
  (hexValue (substring 0 4 s ++ substring 5 4 s),
   hexValue (substring 10 4 s ++ substring 15 4 s)).

(** A code unit that is a hexadecimal digit of either case. *)
Definition hexChar (c : ascii) : bool :=
  match digitValue c with
  | Some d => d <? 16
  | None => false
  end.

(** A string of hexadecimal digits only. *)
Fixpoint allHex (s : string) : bool :=
  match s with
  | EmptyString => true
  | String c s' => hexChar c && allHex s'
  end.

(** The digits of a hexadecimal numeral, most significant first. *)
Fixpoint uintDigits (d : Hexadecimal.uint) : list Z :=
  match d with
  | Hexadecimal.Nil => []
  | Hexadecimal.D0 d => 0 :: uintDigits d
  | Hexadecimal.D1 d => 1 :: uintDigits d
  | Hexadecimal.D2 d => 2 :: uintDigits d
  | Hexadecimal.D3 d => 3 :: uintDigits d
  | Hexadecimal.D4 d => 4 :: uintDigits d
  | Hexadecimal.D5 d => 5 :: uintDigits d
  | Hexadecimal.D6 d => 6 :: uintDigits d
  | Hexadecimal.D7 d => 7 :: uintDigits d
  | Hexadecimal.D8 d => 8 :: uintDigits d
  | Hexadecimal.D9 d => 9 :: uintDigits d
  | Hexadecimal.Da d => 10 :: uintDigits d
  | Hexadecimal.Db d => 11 :: uintDigits d
  | Hexadecimal.Dc d => 12 :: uintDigits d
  | Hexadecimal.Dd d => 13 :: uintDigits d
  | Hexadecimal.De d => 14 :: uintDigits d
  | Hexadecimal.Df d => 15 :: uintDigits d
  end.

End Decode.

Import Decode.

(** ** Characters of a link *)

Module Link.

(** A code unit that a URL holds as it is: an ASCII letter or digit, or
    one of [: / . _ -]. *)
Definition urlSafe (c : ascii) : bool :=
  let n := code_unit c in
  ((48 <=? n) && (n <=? 58) || (65 <=? n) && (n <=? 90)
   || (97 <=? n) && (n <=? 122)
   || (n =? 45) || (n =? 46) || (n =? 47) || (n =? 95))%N.

Fixpoint allUrlSafe (s : string) : bool :=
  match s with
  | EmptyString => true
  | String c s' => urlSafe c && allUrlSafe s'
  end.

End Link.

Import Link.

(** ** The keys of the list entries *)

(** The index of an entry as a template literal prints it: in decimal. *)
Definition indexString (index : nat) : string :=
  DecimalString.NilZero.string_of_uint (Nat.to_uint index).

(** [`${error.code}-${index}`], the React key of an entry. *)
Definition rowKey (error : HMSError) (index : nat) : string :=
  code error ++ "-" ++ indexString index.

(** The keys of one rendering, in the order of the entries. *)
Definition rowKeys (errors : list HMSError) : list string :=
  imap (fun index error => rowKey error index) errors.

(** ** The listener on the window *)

Module Window.

(** A registered listener: the type of event, the callback (functions
    are told apart by identity, here a number) and the capture flag. *)
Record listener : Type := mkListener {
  evType : string;
  callback : nat;
  capture : bool
}.

Definition same (ty : string) (cb : nat) (cap : bool) (l : listener) : bool :=
  String.eqb (evType l) ty && Nat.eqb (callback l) cb
  && Bool.eqb (capture l) cap.

(** [addEventListener(ty, cb)]: appended, unless the same type,
    callback and capture flag are registered already. *)
Definition addEventListener (ls : list listener) (ty : string) (cb : nat)
  : list listener :=
  if existsb (same ty cb false) ls then ls
  else ls ++ [mkListener ty cb false].

(** [removeEventListener(ty, cb)]: the matching listener is taken out. *)
Fixpoint removeEventListener (ls : list listener) (ty : string) (cb : nat)
  : list listener :=
  match ls with
  | [] => []
  | l :: ls' =>
      if same ty cb false l then ls'
      else l :: removeEventListener ls' ty cb
  end.

(** The callbacks that an event of type [ty] on the window runs, in
    the order of their registration. *)
Definition listening (ls : list listener) (ty : string) : list nat :=
  map callback (List.filter (fun l => String.eqb (evType l) ty) ls).

End Window.

Import Window.

(** The effect of the component, for the closure [handleKeyDown] of one
    run of the effect, identified by [h]:
    [window.addEventListener('keydown', handleKeyDown)]. *)
Definition effectSetup (h : nat) (window : list listener) : list listener :=
  addEventListener window "keydown" h.

(** The cleanup that the effect returns:
    [window.removeEventListener('keydown', handleKeyDown)]. *)
Definition effectCleanup (h : nat) (window : list listener) : list listener :=
  removeEventListener window "keydown" h.

(** The calls that the closure [h] makes when an event of type [ty]
    with the keyboard data [e] reaches the window. *)
Definition onWindowEvent (h : nat) (window : list listener) (ty : string)
    (e : KeyboardEvent) : list call :=
  flat_map (fun cb => if Nat.eqb cb h then handleKeyDown e else [])
    (listening window ty).

(** The closure of a run of the effect is a new function: no listener
    of the window has it as its callback. *)
Definition fresh (h : nat) (window : list listener) : Prop :=
  Forall (fun l => callback l <> h) window.

(** * Properties *)

(** ** Arithmetic of the 32-bit operators *)

Lemma int32_range (z : Z) : - 2 ^ 31 <= int32 z < 2 ^ 31.
Proof.
  unfold int32.
  pose proof (Z.mod_pos_bound z (2 ^ 32) eq_refl) as Hm.
  destruct (Z.leb_spec (2 ^ 31) (z mod 2 ^ 32)); lia.
Qed.

Lemma int32_mod (z : Z) : int32 z mod 2 ^ 32 = z mod 2 ^ 32.
Proof.
  unfold int32.
  destruct (Z.leb_spec (2 ^ 31) (z mod 2 ^ 32)).
  - replace (z mod 2 ^ 32 - 2 ^ 32) with (z mod 2 ^ 32 + (-1) * 2 ^ 32) by lia.
    rewrite Z.mod_add by discriminate. apply Z.mod_mod. discriminate.
  - apply Z.mod_mod. discriminate.
Qed.

Lemma int32_small (z : Z) : - 2 ^ 31 <= z < 2 ^ 31 -> int32 z = z.
Proof.
  intros Hz. unfold int32.
  destruct (Z.leb_spec 0 z).
  - rewrite Z.mod_small by lia.
    destruct (Z.leb_spec (2 ^ 31) z); lia.
  - replace (z mod 2 ^ 32) with (z + 2 ^ 32).
    + destruct (Z.leb_spec (2 ^ 31) (z + 2 ^ 32)); lia.
    + symmetry. replace z with ((z + 2 ^ 32) + (-1) * 2 ^ 32) at 1 by lia.
      rewrite Z.mod_add by discriminate. apply Z.mod_small. lia.
Qed.

Lemma truncate_inject (z : Z) : truncate (inject_Z z) = z.
Proof. unfold truncate, inject_Z. simpl. apply Z.quot_1_r. Qed.

Lemma ToInt32_ofZ (z : Z) : ToInt32 (ofZ z) = int32 z.
Proof. unfold ofZ. simpl. now rewrite truncate_inject. Qed.

Lemma ToInt32_range (x : number) : - 2 ^ 31 <= ToInt32 x < 2 ^ 31.
Proof. destruct x; simpl; try lia. apply int32_range. Qed.

Lemma ToInt32_unsigned (u : Z) :
  0 <= u < 2 ^ 32 -> ToInt32 (ofZ u) mod 2 ^ 32 = u.
Proof.
  intros Hu. rewrite ToInt32_ofZ, int32_mod. apply Z.mod_small. exact Hu.
Qed.

(** Masking with [0xFF] keeps the residue modulo 256. *)
Lemma band_255 (x : number) : band x (ofZ 255) = ToInt32 x mod 256.
Proof.
  unfold band. rewrite ToInt32_ofZ.
  rewrite (int32_small 255) by lia.
  change 255 with (Z.ones 8). rewrite Z.land_ones by lia.
  apply int32_small.
  pose proof (Z.mod_pos_bound (ToInt32 x) 256 eq_refl). lia.
Qed.

Lemma sar_ofZ (x : number) (k : Z) :
  0 <= k < 32 -> sar x (ofZ k) = ToInt32 x / 2 ^ k.
Proof.
  intros Hk. unfold sar, ofZ. simpl. rewrite truncate_inject.
  rewrite (Z.mod_small k) by lia.
  change 31 with (Z.ones 5). rewrite Z.land_ones by lia.
  rewrite (Z.mod_small k) by (change (2 ^ 5) with 32; lia).
  apply Z.shiftr_div_pow2. lia.
Qed.

Lemma mod_256_of_mod_2_32 (z : Z) : (z mod 2 ^ 32) mod 256 = z mod 256.
Proof.
  change (2 ^ 32) with (256 * 2 ^ 24).
  rewrite Z.rem_mul_r by lia.
  rewrite (Z.mul_comm 256), Z.mod_add by lia. apply Z.mod_mod. lia.
Qed.

Lemma int32_mod_256 (z : Z) : int32 z mod 256 = z mod 256.
Proof.
  rewrite <- (mod_256_of_mod_2_32 (int32 z)), int32_mod.
  apply mod_256_of_mod_2_32.
Qed.

(** A byte of the signed image is the byte of the unsigned one: the
    sign bits that [>>] brings in lie above the mask. *)
Lemma signed_byte (s k : Z) :
  0 <= k <= 24 -> (s / 2 ^ k) mod 256 = ((s mod 2 ^ 32) / 2 ^ k) mod 256.
Proof.
  intros Hk.
  assert (Hp : 0 < 2 ^ k) by (apply Z.pow_pos_nonneg; lia).
  assert (Hsplit : 2 ^ 32 = 2 ^ k * (256 * 2 ^ (24 - k))).
  { change 256 with (2 ^ 8). rewrite <- !Z.pow_add_r by lia. f_equal. lia. }
  assert (Hq : 0 < 2 ^ (24 - k)) by (apply Z.pow_pos_nonneg; lia).
  rewrite (Z.div_mod s (2 ^ 32)) at 1 by lia.
  rewrite Hsplit at 1.
  replace (2 ^ k * (256 * 2 ^ (24 - k)) * (s / 2 ^ 32) + s mod 2 ^ 32)
    with (s mod 2 ^ 32 + (256 * 2 ^ (24 - k) * (s / 2 ^ 32)) * 2 ^ k) by ring.
  rewrite Z.div_add by lia.
  replace (256 * 2 ^ (24 - k) * (s / 2 ^ 32))
    with ((2 ^ (24 - k) * (s / 2 ^ 32)) * 256) by ring.
  apply Z.mod_add. lia.
Qed.

Lemma low32_range (x : number) : 0 <= low32 x < 2 ^ 32.
Proof. apply Z.mod_pos_bound. reflexivity. Qed.

Lemma low32_ofZ (u : Z) : 0 <= u < 2 ^ 32 -> low32 (ofZ u) = u.
Proof. apply ToInt32_unsigned. Qed.

Lemma extract_byte (x : number) (i : Z) :
  0 <= i <= 3 ->
  band (ofZ (sar x (ofZ (8 * i)))) (ofZ 255) = byteAt (low32 x) i.
Proof.
  intros Hi. rewrite band_255, ToInt32_ofZ, int32_mod_256.
  rewrite sar_ofZ by lia. unfold byteAt, low32.
  apply signed_byte. lia.
Qed.

Lemma extract_low_byte (x : number) :
  band x (ofZ 255) = byteAt (low32 x) 0.
Proof.
  rewrite band_255. unfold byteAt, low32.
  change (2 ^ (8 * 0)) with 1. rewrite Z.div_1_r.
  symmetry. apply mod_256_of_mod_2_32.
Qed.

Lemma byteAt_range (u i : Z) : 0 <= byteAt u i < 256.
Proof. apply Z.mod_pos_bound. reflexivity. Qed.

(** ** Printing one byte *)

(** A property of bytes that a computation settles on all 256 of them. *)
Lemma byte_cases (P : Z -> bool) :
  forallb P (map Z.of_nat (seq 0 256)) = true ->
  forall b, 0 <= b < 256 -> P b = true.
Proof.
  intros Hall b Hb.
  rewrite forallb_forall in Hall. apply Hall.
  apply in_map_iff. exists (Z.to_nat b). split.
  - apply Z2Nat.id. lia.
  - apply in_seq. lia.
Qed.

Lemma print_byte (b : Z) :
  0 <= b < 256 -> toUpperCase (padStart (toString_16 b) 2 "0") = hex2 b.
Proof.
  intros Hb. apply String.eqb_eq.
  revert b Hb.
  apply (byte_cases
           (fun b => String.eqb
                       (toUpperCase (padStart (toString_16 b) 2 "0")) (hex2 b))).
  vm_compute. reflexivity.
Qed.

Lemma hex2_upper (b : Z) :
  0 <= b < 256 ->
  exists c1 c2,
    hex2 b = String c1 (String c2 "") /\
    isUpperHex c1 = true /\ isUpperHex c2 = true.
Proof.
  intros Hb. exists (hexDigit (b / 16)), (hexDigit (b mod 16)).
  split; [reflexivity |].
  apply andb_true_iff. revert b Hb.
  apply (byte_cases
           (fun b => isUpperHex (hexDigit (b / 16))
                     && isUpperHex (hexDigit (b mod 16)))).
  vm_compute. reflexivity.
Qed.

Lemma hexByte_spec (x : number) (i : Z) :
  0 <= i <= 3 -> hexByte x (8 * i) = hex2 (byteAt (low32 x) i).
Proof.
  intros Hi. unfold hexByte. rewrite extract_byte by exact Hi.
  apply print_byte, byteAt_range.
Qed.

Lemma hexLowByte_spec (x : number) :
  hexLowByte x = hex2 (byteAt (low32 x) 0).
Proof.
  unfold hexLowByte. rewrite extract_low_byte.
  apply print_byte, byteAt_range.
Qed.

(** The formatter prints the four bytes of the low 32 bits of each
    argument, whatever the arguments are. *)
Lemma getFullHMSCode_formatted (attr code : number) :
  getFullHMSCode attr code = formatted (low32 attr) (low32 code).
Proof.
  unfold getFullHMSCode, formatted, group.
  change 24 with (8 * 3); change 16 with (8 * 2).
  change (hexByte attr 8) with (hexByte attr (8 * 1)).
  change (hexByte code 8) with (hexByte code (8 * 1)).
  rewrite !hexByte_spec by lia.
  rewrite !hexLowByte_spec.
  reflexivity.
Qed.

(** Every string of the documented format is nineteen characters long
    and matches the pattern, whatever the two values are. *)
Lemma formatted_wellFormed (u v : Z) :
  String.length (formatted u v) = 19%nat /\ wellFormed (formatted u v) = true.
Proof.
  unfold formatted, group.
  destruct (hex2_upper _ (byteAt_range u 3)) as (a1 & a2 & -> & Ha1 & Ha2).
  destruct (hex2_upper _ (byteAt_range u 2)) as (a3 & a4 & -> & Ha3 & Ha4).
  destruct (hex2_upper _ (byteAt_range u 1)) as (a5 & a6 & -> & Ha5 & Ha6).
  destruct (hex2_upper _ (byteAt_range u 0)) as (a7 & a8 & -> & Ha7 & Ha8).
  destruct (hex2_upper _ (byteAt_range v 3)) as (c1 & c2 & -> & Hc1 & Hc2).
  destruct (hex2_upper _ (byteAt_range v 2)) as (c3 & c4 & -> & Hc3 & Hc4).
  destruct (hex2_upper _ (byteAt_range v 1)) as (c5 & c6 & -> & Hc5 & Hc6).
  destruct (hex2_upper _ (byteAt_range v 0)) as (c7 & c8 & -> & Hc7 & Hc8).
  split; [reflexivity |].
  unfold wellFormed. cbv [String.append hexRun].
  rewrite Ha1, Ha2, Ha3, Ha4, Ha5, Ha6, Ha7, Ha8.
  rewrite Hc1, Hc2, Hc3, Hc4.
  rewrite Hc5, Hc6, Hc7, Hc8. reflexivity.
Qed.

(** ** The formatter on unsigned 32-bit integers *)

(** C1.  For unsigned 32-bit integers [attr] and [code], the formatter
    returns AAAA_BBBB_CCCC_DDDD: the four bytes of [attr], most
    significant first, two upper-case zero-padded hexadecimal digits
    each, in the first two groups, and the four bytes of [code] in the
    same way in the last two. *)
Theorem getFullHMSCode_unsigned (attr code : Z) :
  0 <= attr < 2 ^ 32 ->
  0 <= code < 2 ^ 32 ->
  getFullHMSCode (ofZ attr) (ofZ code) =
    hex2 (attr / 2 ^ 24 mod 256) ++ hex2 (attr / 2 ^ 16 mod 256) ++ "_" ++
    hex2 (attr / 2 ^ 8 mod 256) ++ hex2 (attr mod 256) ++ "_" ++
    hex2 (code / 2 ^ 24 mod 256) ++ hex2 (code / 2 ^ 16 mod 256) ++ "_" ++
    hex2 (code / 2 ^ 8 mod 256) ++ hex2 (code mod 256).
Proof.
  intros Ha Hc.
  rewrite getFullHMSCode_formatted, !low32_ofZ by assumption.
  unfold formatted, group, byteAt.
  change (2 ^ (8 * 0)) with 1. rewrite !Z.div_1_r.
  reflexivity.
Qed.

Lemma getFullHMSCode_unsigned_witness :
  0 <= 0x07005500 < 2 ^ 32 /\ 0 <= 0x00020001 < 2 ^ 32 /\
  getFullHMSCode (ofZ 0x07005500) (ofZ 0x00020001) =
    hex2 (0x07005500 / 2 ^ 24 mod 256) ++ hex2 (0x07005500 / 2 ^ 16 mod 256)
    ++ "_" ++
    hex2 (0x07005500 / 2 ^ 8 mod 256) ++ hex2 (0x07005500 mod 256) ++ "_" ++
    hex2 (0x00020001 / 2 ^ 24 mod 256) ++ hex2 (0x00020001 / 2 ^ 16 mod 256)
    ++ "_" ++
    hex2 (0x00020001 / 2 ^ 8 mod 256) ++ hex2 (0x00020001 mod 256).
Proof.
  split; [lia | split; [lia |]].
  apply (getFullHMSCode_unsigned 0x07005500 0x00020001); lia.
Defined.

(** C5.  The formatter at the boundary values: all zero, all ones (where
    [>>] yields -1 and the mask brings it back to 255), and arguments
    whose four bytes differ, each byte in its own position. *)
Theorem getFullHMSCode_boundaries :
  getFullHMSCode (ofZ 0x00000000) (ofZ 0x00000000) = "0000_0000_0000_0000" /\
  getFullHMSCode (ofZ 0xFFFFFFFF) (ofZ 0xFFFFFFFF) = "FFFF_FFFF_FFFF_FFFF" /\
  sar (ofZ 0xFFFFFFFF) (ofZ 24) = -1 /\
  band (ofZ (sar (ofZ 0xFFFFFFFF) (ofZ 24))) (ofZ 0xFF) = 255 /\
  getFullHMSCode (ofZ 0x12345678) (ofZ 0x9ABCDEF0) = "1234_5678_9ABC_DEF0" /\
  getFullHMSCode (ofZ 0x9ABCDEF0) (ofZ 0x12345678) = "9ABC_DEF0_1234_5678".
Proof. repeat split; vm_compute; reflexivity. Qed.

(** C7.  Whatever the two numbers are (negative, fractional, beyond
    2^32, NaN or infinite), the result has nineteen characters, matches
    [[0-9A-F]{4}_[0-9A-F]{4}_[0-9A-F]{4}_[0-9A-F]{4}], and is the
    documented format of the residues modulo 2^32 of the ToInt32 images
    of the arguments. *)
Theorem getFullHMSCode_wellFormed (attr code : number) :
  String.length (getFullHMSCode attr code) = 19%nat /\
  wellFormed (getFullHMSCode attr code) = true /\
  getFullHMSCode attr code =
    formatted (ToInt32 attr mod 2 ^ 32) (ToInt32 code mod 2 ^ 32).
Proof.
  rewrite getFullHMSCode_formatted.
  destruct (formatted_wellFormed (low32 attr) (low32 code)) as [Hlen Hwf].
  repeat split; assumption || reflexivity.
Qed.

(** ** The lookup *)

Lemma HMS_DESCRIPTIONS_nonempty (k d : string) :
  HMS_DESCRIPTIONS !! k = Some d -> d <> "".
Proof.
  intros Hk. unfold HMS_DESCRIPTIONS in Hk.
  apply elem_of_list_to_map_2 in Hk.
  repeat (apply elem_of_cons in Hk as [Hk | Hk];
          [injection Hk as _ ->; discriminate |]).
  apply elem_of_nil in Hk. contradiction.
Qed.

(** No formatted code names a member of [Object.prototype]. *)
Lemma prototype_name_length (k : string) :
  existsb (String.eqb k) Object_prototype_names = true ->
  String.length k <> 19%nat.
Proof.
  intros Hk. apply existsb_exists in Hk as (n & Hn & Heq).
  apply String.eqb_eq in Heq. subst n.
  unfold Object_prototype_names in Hn.
  repeat (destruct Hn as [<- | Hn]; [discriminate |]).
  destruct Hn.
Qed.

Lemma get_formatted (attr code : number) :
  get HMS_DESCRIPTIONS (getFullHMSCode attr code) =
    match HMS_DESCRIPTIONS !! getFullHMSCode attr code with
    | Some d => str d
    | None => undefined
    end.
Proof.
  unfold get.
  destruct (HMS_DESCRIPTIONS !! getFullHMSCode attr code); [reflexivity |].
  destruct (existsb _ Object_prototype_names) eqn:Hproto; [| reflexivity].
  apply prototype_name_length in Hproto.
  rewrite getFullHMSCode_formatted in Hproto.
  destruct (formatted_wellFormed (low32 attr) (low32 code)) as [Hlen _].
  contradiction.
Qed.

(** C2.  The description of a displayed error is found with its
    formatted code as the key of [HMS_DESCRIPTIONS]: the string mapped
    to the key when there is one, the fixed fallback message for a code
    that the table lacks. *)
Theorem description_lookup (printerName : string) (error : HMSError) :
  fullHMSCode (renderError printerName error) =
    getFullHMSCode (attr error) (codeNum error) /\
  description (renderError printerName error) =
    str (match HMS_DESCRIPTIONS !! fullHMSCode (renderError printerName error)
         with
         | Some d => d
         | None => "Unknown error. Click the link below for details."
         end).
Proof.
  split; [reflexivity |].
  cbn [renderError description fullHMSCode].
  rewrite get_formatted.
  destruct (HMS_DESCRIPTIONS !! _) as [d |] eqn:Hd; [| reflexivity].
  apply HMS_DESCRIPTIONS_nonempty in Hd.
  destruct d; [contradiction | reflexivity].
Qed.

(** A code of the table, and one that is not in it. *)
Example description_known :
  description
    (renderError "H2D" (mkHMSError (ofZ 0x0C000100) "0x000C8000" (ofZ 3))) =
  str "Foreign object detected on print bed.".
Proof. vm_compute. reflexivity. Qed.

Example description_unknown :
  description
    (renderError "H2D" (mkHMSError (ofZ 0x0C000100) "0x000C8001" (ofZ 3))) =
  str "Unknown error. Click the link below for details.".
Proof. vm_compute. reflexivity. Qed.

(** ** Severity *)

Lemma strict_eq_ofZ (a b : Z) : strict_eq (ofZ a) (ofZ b) = (a =? b).
Proof.
  unfold strict_eq, ofZ, Qeq_bool, inject_Z. simpl.
  rewrite !Z.mul_1_r. reflexivity.
Qed.

(** C4.  The classifier on integers: 1 is Fatal, 2 Serious, 3 Warning,
    4 Info, each with its colours and icon, and any other integer gets
    what 4 gets. *)
Theorem getSeverityInfo_total :
  getSeverityInfo (ofZ 1) =
    mkSeverityInfo "Fatal" "text-red-500" "bg-red-500/20" AlertTriangle /\
  getSeverityInfo (ofZ 2) =
    mkSeverityInfo "Serious" "text-red-400" "bg-red-500/15" AlertTriangle /\
  getSeverityInfo (ofZ 3) =
    mkSeverityInfo "Warning" "text-orange-400" "bg-orange-500/20" AlertCircle /\
  getSeverityInfo (ofZ 4) =
    mkSeverityInfo "Info" "text-blue-400" "bg-blue-500/20" Info /\
  (forall z : Z,
     z <> 1 -> z <> 2 -> z <> 3 -> z <> 4 ->
     getSeverityInfo (ofZ z) = getSeverityInfo (ofZ 4)).
Proof.
  repeat split.
  intros z H1 H2 H3 _. unfold getSeverityInfo.
  rewrite !strict_eq_ofZ.
  apply Z.eqb_neq in H1, H2, H3. rewrite H1, H2, H3. reflexivity.
Qed.

Lemma getSeverityInfo_total_witness :
  7 <> 1 /\ 7 <> 2 /\ 7 <> 3 /\ 7 <> 4 /\
  getSeverityInfo (ofZ 7) = getSeverityInfo (ofZ 4).
Proof.
  assert (H1 : 7 <> 1) by lia. assert (H2 : 7 <> 2) by lia.
  assert (H3 : 7 <> 3) by lia. assert (H4 : 7 <> 4) by lia.
  split; [exact H1 | split; [exact H2 | split; [exact H3 | split]]].
  - exact H4.
  - destruct getSeverityInfo_total as (_ & _ & _ & _ & Hother).
    exact (Hother 7 H1 H2 H3 H4).
Defined.

(** A severity that is no integer at all is classified like 4 as well. *)
Example getSeverityInfo_other :
  getSeverityInfo NaN = getSeverityInfo (ofZ 4) /\
  getSeverityInfo (Infinity false) = getSeverityInfo (ofZ 4) /\
  getSeverityInfo (Finite (3 # 2)) = getSeverityInfo (ofZ 4) /\
  getSeverityInfo (ofZ 0) = getSeverityInfo (ofZ 4) /\
  getSeverityInfo (ofZ (-1)) = getSeverityInfo (ofZ 4).
Proof. repeat split. Qed.

(** ** The keyboard handler *)

(** C6.  The handler calls [onClose] exactly when the key of the event
    is Escape, and then once; for any other key it makes no call, so
    that nothing changes. *)
Theorem handleKeyDown_escape (e : KeyboardEvent) :
  (In OnClose (handleKeyDown e) <-> key e = "Escape") /\
  (key e = "Escape" ->
   forall (World : Type) (onClose : World -> World) (w : World),
     run onClose (handleKeyDown e) w = onClose w) /\
  (key e <> "Escape" ->
   handleKeyDown e = [] /\
   forall (World : Type) (onClose : World -> World) (w : World),
     run onClose (handleKeyDown e) w = w).
Proof.
  unfold handleKeyDown.
  destruct (String.eqb_spec (key e) "Escape") as [Heq | Hne].
  - split; [| split].
    + split; [trivial | now left].
    + reflexivity.
    + intros Hne. contradiction.
  - split; [| split].
    + split; [intros [] | contradiction].
    + contradiction.
    + split; reflexivity.
Qed.

Lemma handleKeyDown_escape_witness :
  key (mkKeyboardEvent "Enter") <> "Escape" /\
  handleKeyDown (mkKeyboardEvent "Enter") = [] /\
  run Z.succ (handleKeyDown (mkKeyboardEvent "Enter")) 0 = 0.
Proof.
  assert (Hkey : key (mkKeyboardEvent "Enter") <> "Escape") by discriminate.
  destruct (handleKeyDown_escape (mkKeyboardEvent "Enter"))
    as (_ & _ & Hother).
  destruct (Hother Hkey) as [Hnone Hsame].
  split; [exact Hkey | split; [exact Hnone | exact (Hsame Z Z.succ 0)]].
Defined.

Example handleKeyDown_keys :
  handleKeyDown (mkKeyboardEvent "Escape") = [OnClose] /\
  handleKeyDown (mkKeyboardEvent "Enter") = [] /\
  handleKeyDown (mkKeyboardEvent "escape") = [] /\
  run Z.succ (handleKeyDown (mkKeyboardEvent "Escape")) 0 = 1 /\
  run Z.succ (handleKeyDown (mkKeyboardEvent "Esc")) 0 = 0.
Proof. repeat split. Qed.

(** ** The wiki link *)

Lemma lower_unit_h (c : ascii) :
  Ascii.eqb "h" (lower_unit c) = Ascii.eqb c "h" || Ascii.eqb c "H".
Proof.
  destruct c as [[] [] [] [] [] [] [] []]; vm_compute; reflexivity.
Qed.

Lemma lower_unit_2 (c : ascii) :
  Ascii.eqb "2" (lower_unit c) = Ascii.eqb c "2".
Proof.
  destruct c as [[] [] [] [] [] [] [] []]; vm_compute; reflexivity.
Qed.

Lemma startsWith_empty (s : string) : startsWith s "" = true.
Proof. destruct s; reflexivity. Qed.

Lemma startsWith_lower_h2 (name : string) :
  startsWith (toLowerCase name) "h2" = startsH2 name.
Proof.
  destruct name as [| c [| d rest]]; cbn [toLowerCase startsWith startsH2].
  - reflexivity.
  - rewrite andb_false_r. reflexivity.
  - rewrite lower_unit_h, lower_unit_2, startsWith_empty, andb_true_r.
    reflexivity.
Qed.

Lemma startsH2_spec (name : string) :
  startsH2 name = true <->
  exists c post,
    name = String c (String "2" post) /\ (c = "h"%char \/ c = "H"%char).
Proof.
  split.
  - destruct name as [| c [| d rest]]; cbn [startsH2]; try discriminate.
    intros H. apply andb_true_iff in H as [Hc Hd].
    apply Ascii.eqb_eq in Hd. subst d.
    exists c, rest. split; [reflexivity |].
    apply orb_true_iff in Hc as [Hc | Hc]; apply Ascii.eqb_eq in Hc; auto.
  - intros (c & post & -> & [-> | ->]); reflexivity.
Qed.

Lemma includes_lower_h2 (name : string) :
  includes (toLowerCase name) "h2" = true <-> mentionsH2 name.
Proof.
  unfold mentionsH2. induction name as [| a name IH].
  - split; [discriminate |].
    intros (pre & c & post & H & _). destruct pre; discriminate.
  - change (includes (toLowerCase (String a name)) "h2")
      with (startsWith (toLowerCase (String a name)) "h2"
            || includes (toLowerCase name) "h2").
    rewrite startsWith_lower_h2, orb_true_iff, IH, startsH2_spec.
    split.
    + intros [(c & post & Heq & Hc) | (pre & c & post & Heq & Hc)].
      * exists "", c, post. split; assumption.
      * exists (String a pre), c, post. split; [| assumption].
        rewrite Heq. reflexivity.
    + intros (pre & c & post & Heq & Hc). destruct pre as [| b pre].
      * left. exists c, post. split; assumption.
      * right. injection Heq as -> Heq.
        exists pre, c, post. split; assumption.
Qed.

(** C3.  The link is the wiki address, then [h2] when the lower-cased
    device name includes [h2] and [x1] when it does not, then the
    troubleshooting path and the formatted code; the test on the name
    holds exactly when the name has an [h] of either case followed by
    a [2]. *)
Theorem getHMSWikiUrl_segment (attr code : number) (printerName : string) :
  getHMSWikiUrl attr code printerName =
    "https://wiki.bambulab.com/en/"
    ++ (if includes (toLowerCase printerName) "h2" then "h2" else "x1")
    ++ "/troubleshooting/hmscode/" ++ getFullHMSCode attr code /\
  (mentionsH2 printerName ->
   getHMSWikiUrl attr code printerName =
     "https://wiki.bambulab.com/en/h2/troubleshooting/hmscode/"
     ++ getFullHMSCode attr code) /\
  (~ mentionsH2 printerName ->
   getHMSWikiUrl attr code printerName =
     "https://wiki.bambulab.com/en/x1/troubleshooting/hmscode/"
     ++ getFullHMSCode attr code).
Proof.
  split; [reflexivity |].
  unfold getHMSWikiUrl.
  destruct (includes (toLowerCase printerName) "h2") eqn:Hinc.
  - split; [reflexivity |].
    intros Hno. apply includes_lower_h2 in Hinc. contradiction.
  - split; [| reflexivity].
    intros Hyes. apply includes_lower_h2 in Hyes. congruence.
Qed.

Lemma getHMSWikiUrl_segment_witness :
  mentionsH2 "Workshop H2D" /\
  getHMSWikiUrl (ofZ 0x07005500) (ofZ 0x00020001) "Workshop H2D" =
    "https://wiki.bambulab.com/en/h2/troubleshooting/hmscode/"
    ++ getFullHMSCode (ofZ 0x07005500) (ofZ 0x00020001).
Proof.
  assert (Hname : mentionsH2 "Workshop H2D").
  { exists "Workshop ", "H"%char, "D". split; [reflexivity | now right]. }
  split; [exact Hname |].
  exact (proj1 (proj2 (getHMSWikiUrl_segment _ _ _)) Hname).
Defined.

Example getHMSWikiUrl_names :
  getHMSWikiUrl (ofZ 0x07005500) (ofZ 0x00020001) "Workshop H2D" =
    "https://wiki.bambulab.com/en/h2/troubleshooting/hmscode/0700_5500_0002_0001"
  /\
  getHMSWikiUrl (ofZ 0x07005500) (ofZ 0x00020001) "bench-h2s" =
    "https://wiki.bambulab.com/en/h2/troubleshooting/hmscode/0700_5500_0002_0001"
  /\
  getHMSWikiUrl (ofZ 0x07005500) (ofZ 0x00020001) "X1 Carbon" =
    "https://wiki.bambulab.com/en/x1/troubleshooting/hmscode/0700_5500_0002_0001"
  /\
  getHMSWikiUrl (ofZ 0x07005500) (ofZ 0x00020001) "H 2" =
    "https://wiki.bambulab.com/en/x1/troubleshooting/hmscode/0700_5500_0002_0001".
Proof. repeat split; vm_compute; reflexivity. Qed.

(** ** The code label *)

Lemma isUpperHex_not_underscore (c : ascii) :
  isUpperHex c = true -> Ascii.eqb c "_" = false.
Proof.
  intros Hc. destruct (Ascii.eqb_spec c "_") as [-> | _]; [| reflexivity].
  vm_compute in Hc. discriminate.
Qed.

Lemma replaceAll_group (u hi lo : Z) (rest : string) :
  replaceAll (group u hi lo ++ rest) "_" "-" =
  group u hi lo ++ replaceAll rest "_" "-".
Proof.
  unfold group.
  destruct (hex2_upper _ (byteAt_range u hi)) as (c1 & c2 & -> & H1 & H2).
  destruct (hex2_upper _ (byteAt_range u lo)) as (c3 & c4 & -> & H3 & H4).
  apply isUpperHex_not_underscore in H1, H2, H3, H4.
  cbv [String.append]. cbn [replaceAll].
  rewrite H1, H2, H3, H4. reflexivity.
Qed.

Lemma replaceAll_underscore (rest : string) :
  replaceAll ("_" ++ rest) "_" "-" = "-" ++ replaceAll rest "_" "-".
Proof. reflexivity. Qed.

Lemma append_empty_r (s : string) : s ++ "" = s.
Proof.
  induction s as [| c s IH]; [reflexivity |].
  change (String c (s ++ "") = String c s). now rewrite IH.
Qed.

Lemma replaceAll_group_end (u hi lo : Z) :
  replaceAll (group u hi lo) "_" "-" = group u hi lo.
Proof.
  rewrite <- (append_empty_r (group u hi lo)) at 1.
  rewrite replaceAll_group. apply append_empty_r.
Qed.

Lemma replaceAll_formatted (u v : Z) :
  replaceAll (formatted u v) "_" "-" =
  group u 3 2 ++ "-" ++ group u 1 0 ++ "-" ++ group v 3 2 ++ "-" ++ group v 1 0.
Proof.
  unfold formatted.
  do 3 rewrite replaceAll_group, replaceAll_underscore.
  rewrite replaceAll_group_end. reflexivity.
Qed.

(** C9.  The label on screen is [HMS_] followed by the four groups of
    the formatted code with hyphens between them, while the key of the
    lookup and the end of the wiki link are the formatted code itself,
    underscores kept. *)
Theorem displayCode_hyphens (printerName : string) (error : HMSError) :
  displayCode (renderError printerName error) =
    "HMS_"
    ++ group (low32 (attr error)) 3 2 ++ "-"
    ++ group (low32 (attr error)) 1 0 ++ "-"
    ++ group (low32 (codeNum error)) 3 2 ++ "-"
    ++ group (low32 (codeNum error)) 1 0 /\
  fullHMSCode (renderError printerName error) =
    group (low32 (attr error)) 3 2 ++ "_"
    ++ group (low32 (attr error)) 1 0 ++ "_"
    ++ group (low32 (codeNum error)) 3 2 ++ "_"
    ++ group (low32 (codeNum error)) 1 0 /\
  description (renderError printerName error) =
    value_or
      (get HMS_DESCRIPTIONS (fullHMSCode (renderError printerName error)))
      "Unknown error. Click the link below for details." /\
  wikiUrl (renderError printerName error) =
    "https://wiki.bambulab.com/en/"
    ++ (if includes (toLowerCase printerName) "h2" then "h2" else "x1")
    ++ "/troubleshooting/hmscode/"
    ++ fullHMSCode (renderError printerName error).
Proof.
  cbn [renderError displayCode fullHMSCode description wikiUrl].
  rewrite getFullHMSCode_formatted.
  split; [| split; [| split]].
  - rewrite replaceAll_formatted. reflexivity.
  - reflexivity.
  - reflexivity.
  - unfold getHMSWikiUrl. rewrite getFullHMSCode_formatted. reflexivity.
Qed.

Example displayCode_sample :
  displayCode
    (renderError "X1C" (mkHMSError (ofZ 0x05000300) "0x0002000E" (ofZ 2))) =
  "HMS_0500-0300-0002-000E".
Proof. vm_compute. reflexivity. Qed.

(** ** Reading the code field *)

Lemma replace_cons (c : ascii) (s pat rep : string) :
  replace (String c s) pat rep =
  if startsWith (String c s) pat
  then rep ++ drop (String.length pat) (String c s)
  else String c (replace s pat rep).
Proof. reflexivity. Qed.

Lemma includes_cons (c : ascii) (s p : string) :
  includes (String c s) p = startsWith (String c s) p || includes s p.
Proof. reflexivity. Qed.

Lemma startsWith_0x (s : string) :
  startsWith s "0x" = true <-> exists rest, s = "0x" ++ rest.
Proof.
  split.
  - destruct s as [| a [| b rest]]; cbn [startsWith]; try discriminate.
    + rewrite andb_false_r. discriminate.
    + intros H. apply andb_true_iff in H as [Ha H].
      apply andb_true_iff in H as [Hb _].
      apply Ascii.eqb_eq in Ha, Hb. subst a b. exists rest. reflexivity.
  - intros (rest & ->). cbn [String.append startsWith].
    change ("0x" ++ rest) with (String "0" (String "x" rest)).
    cbn [startsWith]. rewrite startsWith_empty. reflexivity.
Qed.

(** Whether [String c t] starts with ["0x"] depends on [c] and on the
    first code unit of [t] only. *)
Lemma startsWith_0x_head (c : ascii) (pre rest : string) :
  startsWith (String c (pre ++ "0x" ++ rest)) "0x" = false ->
  startsWith (String c (pre ++ "0")) "0x" = false.
Proof.
  destruct pre as [| d pre].
  - intros _. cbn [startsWith].
    change ("" ++ "0") with "0". cbn [startsWith].
    rewrite andb_false_r. reflexivity.
  - change (String d pre ++ "0x" ++ rest)
      with (String d (pre ++ "0x" ++ rest)).
    change (String d pre ++ "0") with (String d (pre ++ "0")).
    cbn [startsWith]. rewrite !startsWith_empty. trivial.
Qed.

(** [replace] takes the first occurrence of ["0x"] out, wherever it is. *)
Lemma replace_withoutFirst0x (s : string) :
  withoutFirst0x s (replace s "0x" "").
Proof.
  unfold withoutFirst0x. induction s as [| c s IH].
  - left. split; reflexivity.
  - rewrite replace_cons, includes_cons.
    destruct (startsWith (String c s) "0x") eqn:Hsw.
    + right. apply startsWith_0x in Hsw as (rest & Hrest).
      exists "", rest. rewrite Hrest. repeat split.
    + destruct IH as [[Hno Hsame] | (pre & post & Hs & Hfirst & Hout)].
      * left. rewrite Hno, Hsame. split; reflexivity.
      * right. exists (String c pre), post. split; [| split].
        -- rewrite Hs. reflexivity.
        -- change (String c pre ++ "0") with (String c (pre ++ "0")).
           rewrite includes_cons, Hfirst, orb_false_r.
           rewrite Hs in Hsw. apply (startsWith_0x_head _ _ _ Hsw).
        -- rewrite Hout. reflexivity.
Qed.

Lemma replace_prefix_0x (rest : string) : replace ("0x" ++ rest) "0x" "" = rest.
Proof.
  change ("0x" ++ rest) with (String "0" (String "x" rest)).
  rewrite replace_cons. cbn [startsWith]. rewrite startsWith_empty.
  reflexivity.
Qed.

Lemma getFullHMSCode_zero_code (x : number) :
  getFullHMSCode x (ofZ 0) =
  group (low32 x) 3 2 ++ "_" ++ group (low32 x) 1 0 ++ "_0000_0000".
Proof. rewrite getFullHMSCode_formatted. reflexivity. Qed.

Lemma replaceAll_zero_code (u : Z) :
  replaceAll (group u 3 2 ++ "_" ++ group u 1 0 ++ "_0000_0000") "_" "-" =
  group u 3 2 ++ "-" ++ group u 1 0 ++ "-0000-0000".
Proof.
  rewrite replaceAll_group, replaceAll_underscore, replaceAll_group.
  reflexivity.
Qed.

(** C8 as the code has it.  The code field is a string: its first
    occurrence of [0x], wherever it is, is taken out (a prefix [0x]
    when the string starts with one), the rest is read by [parseInt]
    in base 16, and NaN becomes 0.  A field that [parseInt] cannot
    read is then shown with 0000 and 0000 as the last two groups:
    the formatted code and the wiki link end in [_0000_0000], the
    label on screen in [-0000-0000]. *)
Theorem codeNum_first_0x (printerName : string) (error : HMSError) :
  withoutFirst0x (code error) (replace (code error) "0x" "") /\
  (forall rest, code error = "0x" ++ rest ->
     replace (code error) "0x" "" = rest) /\
  codeNum error =
    or_else (parseInt (replace (code error) "0x" "") (ofZ 16)) (ofZ 0) /\
  (parseInt (replace (code error) "0x" "") (ofZ 16) = NaN ->
   codeNum error = ofZ 0 /\
   fullHMSCode (renderError printerName error) =
     group (low32 (attr error)) 3 2 ++ "_"
     ++ group (low32 (attr error)) 1 0 ++ "_0000_0000" /\
   wikiUrl (renderError printerName error) =
     "https://wiki.bambulab.com/en/"
     ++ (if includes (toLowerCase printerName) "h2" then "h2" else "x1")
     ++ "/troubleshooting/hmscode/"
     ++ group (low32 (attr error)) 3 2 ++ "_"
     ++ group (low32 (attr error)) 1 0 ++ "_0000_0000" /\
   displayCode (renderError printerName error) =
     "HMS_" ++ group (low32 (attr error)) 3 2 ++ "-"
     ++ group (low32 (attr error)) 1 0 ++ "-0000-0000").
Proof.
  split; [apply replace_withoutFirst0x |].
  split; [intros rest ->; apply replace_prefix_0x |].
  split; [reflexivity |].
  intros Hnan.
  assert (Hzero : codeNum error = ofZ 0).
  { unfold codeNum. rewrite Hnan. reflexivity. }
  split; [exact Hzero |].
  cbn [renderError displayCode fullHMSCode wikiUrl].
  unfold getHMSWikiUrl.
  rewrite Hzero, getFullHMSCode_zero_code, replaceAll_zero_code.
  repeat split.
Qed.

Lemma codeNum_first_0x_witness :
  parseInt (replace "zz" "0x" "") (ofZ 16) = NaN /\
  codeNum (mkHMSError (ofZ 0x07005500) "zz" (ofZ 1)) = ofZ 0 /\
  fullHMSCode (renderError "X1C" (mkHMSError (ofZ 0x07005500) "zz" (ofZ 1))) =
    group (low32 (ofZ 0x07005500)) 3 2 ++ "_"
    ++ group (low32 (ofZ 0x07005500)) 1 0 ++ "_0000_0000".
Proof.
  assert (Hnan : parseInt (replace "zz" "0x" "") (ofZ 16) = NaN)
    by reflexivity.
  destruct (codeNum_first_0x "X1C" (mkHMSError (ofZ 0x07005500) "zz" (ofZ 1)))
    as (_ & _ & _ & Hunread).
  destruct (Hunread Hnan) as (Hzero & Hcode & _).
  split; [exact Hnan | split; [exact Hzero | exact Hcode]].
Defined.

(** A field with no hexadecimal digit to read. *)
Example codeNum_unreadable :
  parseInt (replace "zz" "0x" "") (ofZ 16) = NaN /\
  fullHMSCode (renderError "X1C" (mkHMSError (ofZ 0x07005500) "zz" (ofZ 1))) =
    "0700_5500_0000_0000" /\
  wikiUrl (renderError "X1C" (mkHMSError (ofZ 0x07005500) "zz" (ofZ 1))) =
    "https://wiki.bambulab.com/en/x1/troubleshooting/hmscode/0700_5500_0000_0000"
  /\
  displayCode (renderError "X1C" (mkHMSError (ofZ 0x07005500) "zz" (ofZ 1))) =
    "HMS_0700-5500-0000-0000".
Proof. repeat split; vm_compute; reflexivity. Qed.

(** C8 as it is worded fails: in ["10x2"] the [0x] is no prefix, yet
    it is taken out, and the field is read as 0x12 = 18, where reading
    the field with an optional prefix taken off stops at the [x] and
    gives 0x10 = 16; the two show different last groups. *)
Lemma codeNum_not_prefix_reading :
  codeNum (mkHMSError (ofZ 0) "10x2" (ofZ 1)) = ofZ 18 /\
  codeNumOfPrefixReading (mkHMSError (ofZ 0) "10x2" (ofZ 1)) = ofZ 16 /\
  fullHMSCode (renderError "X1C" (mkHMSError (ofZ 0) "10x2" (ofZ 1))) =
    "0000_0000_0000_0012" /\
  getFullHMSCode (ofZ 0)
    (codeNumOfPrefixReading (mkHMSError (ofZ 0) "10x2" (ofZ 1))) =
    "0000_0000_0000_0010" /\
  codeNum (mkHMSError (ofZ 0) "10x2" (ofZ 1)) <>
    codeNumOfPrefixReading (mkHMSError (ofZ 0) "10x2" (ofZ 1)).
Proof.
  repeat split; try (vm_compute; reflexivity).
  vm_compute. discriminate.
Qed.

(** * Further properties *)

(** ** The formatter is one-to-one and onto the documented format *)

Lemma hex2_digits (b : Z) :
  0 <= b < 256 ->
  exists c1 c2,
    hex2 b = String c1 (String c2 "") /\
    digitValue c1 = Some (b / 16) /\ digitValue c2 = Some (b mod 16).
Proof.
  intros Hb. exists (hexDigit (b / 16)), (hexDigit (b mod 16)).
  split; [reflexivity |].
  assert (Hboth :
    (match digitValue (hexDigit (b / 16)) with
     | Some d => d =? b / 16
     | None => false
     end
     && match digitValue (hexDigit (b mod 16)) with
        | Some d => d =? b mod 16
        | None => false
        end) = true).
  { revert b Hb.
    apply (byte_cases
             (fun b =>
                match digitValue (hexDigit (b / 16)) with
                | Some d => d =? b / 16
                | None => false
                end
                && match digitValue (hexDigit (b mod 16)) with
                   | Some d => d =? b mod 16
                   | None => false
                   end)).
    vm_compute. reflexivity. }
  apply andb_true_iff in Hboth as [H1 H2].
  destruct (digitValue (hexDigit (b / 16))) as [d1 |]; [| discriminate].
  destruct (digitValue (hexDigit (b mod 16))) as [d2 |]; [| discriminate].
  apply Z.eqb_eq in H1, H2. subst. split; reflexivity.
Qed.

Lemma radixDigits_cons (c : ascii) (d : Z) (s : string) :
  digitValue c = Some d -> d < 16 ->
  radixDigits 16 (String c s) = d :: radixDigits 16 s.
Proof.
  intros Hc Hd. cbn [radixDigits]. rewrite Hc.
  destruct (Z.ltb_spec d 16); [reflexivity | lia].
Qed.

(** The value of the eight digits of two groups is the 32-bit value
    they were taken from. *)
Lemma hexValue_groups (u : Z) :
  0 <= u < 2 ^ 32 -> hexValue (group u 3 2 ++ group u 1 0) = u.
Proof.
  intros Hu. unfold group, hexValue.
  destruct (hex2_digits _ (byteAt_range u 3)) as (a1 & a2 & -> & Ha1 & Ha2).
  destruct (hex2_digits _ (byteAt_range u 2)) as (a3 & a4 & -> & Ha3 & Ha4).
  destruct (hex2_digits _ (byteAt_range u 1)) as (a5 & a6 & -> & Ha5 & Ha6).
  destruct (hex2_digits _ (byteAt_range u 0)) as (a7 & a8 & -> & Ha7 & Ha8).
  cbv [String.append].
  pose proof (byteAt_range u 3) as R3. pose proof (byteAt_range u 2) as R2.
  pose proof (byteAt_range u 1) as R1. pose proof (byteAt_range u 0) as R0.
  rewrite (radixDigits_cons _ _ _ Ha1), (radixDigits_cons _ _ _ Ha2),
    (radixDigits_cons _ _ _ Ha3), (radixDigits_cons _ _ _ Ha4),
    (radixDigits_cons _ _ _ Ha5), (radixDigits_cons _ _ _ Ha6),
    (radixDigits_cons _ _ _ Ha7), (radixDigits_cons _ _ _ Ha8)
    by (apply Z.div_lt_upper_bound || apply Z.mod_pos_bound; lia).
  cbn [radixDigits mathInt fold_left].
  revert R3 R2 R1 R0. unfold byteAt.
  change (2 ^ (8 * 3)) with 16777216. change (2 ^ (8 * 2)) with 65536.
  change (2 ^ (8 * 1)) with 256. change (2 ^ (8 * 0)) with 1.
  change (2 ^ 32) with 4294967296 in Hu.
  intros R3 R2 R1 R0.
  Z.div_mod_to_equations. lia.
Qed.

Lemma length_four (s : string) :
  String.length s = 4%nat ->
  exists a b c d, s = String a (String b (String c (String d ""))).
Proof.
  destruct s as [| a [| b [| c [| d [| e s]]]]]; try discriminate.
  intros _. exists a, b, c, d. reflexivity.
Qed.

Lemma substring_groups (g1 g2 g3 g4 : string) :
  String.length g1 = 4%nat -> String.length g2 = 4%nat ->
  String.length g3 = 4%nat -> String.length g4 = 4%nat ->
  substring 0 4 (g1 ++ "_" ++ g2 ++ "_" ++ g3 ++ "_" ++ g4) = g1 /\
  substring 5 4 (g1 ++ "_" ++ g2 ++ "_" ++ g3 ++ "_" ++ g4) = g2 /\
  substring 10 4 (g1 ++ "_" ++ g2 ++ "_" ++ g3 ++ "_" ++ g4) = g3 /\
  substring 15 4 (g1 ++ "_" ++ g2 ++ "_" ++ g3 ++ "_" ++ g4) = g4.
Proof.
  intros H1 H2 H3 H4.
  destruct (length_four _ H1) as (? & ? & ? & ? & ->).
  destruct (length_four _ H2) as (? & ? & ? & ? & ->).
  destruct (length_four _ H3) as (? & ? & ? & ? & ->).
  destruct (length_four _ H4) as (? & ? & ? & ? & ->).
  repeat split.
Qed.

Lemma group_length (u hi lo : Z) : String.length (group u hi lo) = 4%nat.
Proof. reflexivity. Qed.

Lemma decodeHMSCode_formatted (u v : Z) :
  0 <= u < 2 ^ 32 -> 0 <= v < 2 ^ 32 ->
  decodeHMSCode (formatted u v) = (u, v).
Proof.
  intros Hu Hv. unfold decodeHMSCode, formatted.
  destruct (substring_groups (group u 3 2) (group u 1 0)
              (group v 3 2) (group v 1 0)) as (-> & -> & -> & ->);
    try apply group_length.
  rewrite !hexValue_groups by assumption. reflexivity.
Qed.

(** X1.  Two calls give the same code exactly when their arguments agree
    modulo 2^32 (in their ToInt32 images): distinct pairs of unsigned
    32-bit values never share a code. *)
Theorem getFullHMSCode_injective (x y x' y' : number) :
  getFullHMSCode x y = getFullHMSCode x' y' <->
  low32 x = low32 x' /\ low32 y = low32 y'.
Proof.
  rewrite !getFullHMSCode_formatted. split.
  - intros Heq. apply (f_equal decodeHMSCode) in Heq.
    rewrite !decodeHMSCode_formatted in Heq by apply low32_range.
    injection Heq as -> ->. split; reflexivity.
  - intros [-> ->]. reflexivity.
Qed.

Lemma upperHex_digit (c : ascii) :
  isUpperHex c = true ->
  exists d, 0 <= d < 16 /\ digitValue c = Some d /\ hexDigit d = c.
Proof.
  intros Hc.
  exists (match digitValue c with Some d => d | None => 0 end).
  destruct c as [[] [] [] [] [] [] [] []];
    vm_compute in Hc; try discriminate Hc;
    (split; [vm_compute; split; [discriminate | reflexivity]
           | split; reflexivity]).
Qed.

Lemma hex2_of_digits (d1 d2 : Z) :
  0 <= d1 < 16 -> 0 <= d2 < 16 ->
  hex2 (d1 * 16 + d2) = String (hexDigit d1) (String (hexDigit d2) "").
Proof.
  intros H1 H2. unfold hex2.
  replace ((d1 * 16 + d2) / 16) with d1
    by (Z.div_mod_to_equations; lia).
  replace ((d1 * 16 + d2) mod 16) with d2
    by (Z.div_mod_to_equations; lia).
  reflexivity.
Qed.

(** Four upper-case hexadecimal digits, twice: the groups of the value
    they denote. *)
Lemma groups_of_digits (c1 c2 c3 c4 c5 c6 c7 c8 : ascii) :
  isUpperHex c1 = true -> isUpperHex c2 = true ->
  isUpperHex c3 = true -> isUpperHex c4 = true ->
  isUpperHex c5 = true -> isUpperHex c6 = true ->
  isUpperHex c7 = true -> isUpperHex c8 = true ->
  exists u,
    0 <= u < 2 ^ 32 /\
    group u 3 2 = String c1 (String c2 (String c3 (String c4 ""))) /\
    group u 1 0 = String c5 (String c6 (String c7 (String c8 ""))).
Proof.
  intros H1 H2 H3 H4 H5 H6 H7 H8.
  destruct (upperHex_digit _ H1) as (d1 & R1 & _ & <-).
  destruct (upperHex_digit _ H2) as (d2 & R2 & _ & <-).
  destruct (upperHex_digit _ H3) as (d3 & R3 & _ & <-).
  destruct (upperHex_digit _ H4) as (d4 & R4 & _ & <-).
  destruct (upperHex_digit _ H5) as (d5 & R5 & _ & <-).
  destruct (upperHex_digit _ H6) as (d6 & R6 & _ & <-).
  destruct (upperHex_digit _ H7) as (d7 & R7 & _ & <-).
  destruct (upperHex_digit _ H8) as (d8 & R8 & _ & <-).
  exists ((d1 * 16 + d2) * 16777216 + (d3 * 16 + d4) * 65536
          + (d5 * 16 + d6) * 256 + (d7 * 16 + d8)).
  split; [change (2 ^ 32) with 4294967296; lia |].
  unfold group, byteAt.
  change (2 ^ (8 * 3)) with 16777216. change (2 ^ (8 * 2)) with 65536.
  change (2 ^ (8 * 1)) with 256. change (2 ^ (8 * 0)) with 1.
  set (u := (d1 * 16 + d2) * 16777216 + (d3 * 16 + d4) * 65536
            + (d5 * 16 + d6) * 256 + (d7 * 16 + d8)).
  replace (u / 16777216 mod 256) with (d1 * 16 + d2)
    by (subst u; Z.div_mod_to_equations; lia).
  replace (u / 65536 mod 256) with (d3 * 16 + d4)
    by (subst u; Z.div_mod_to_equations; lia).
  replace (u / 256 mod 256) with (d5 * 16 + d6)
    by (subst u; Z.div_mod_to_equations; lia).
  replace (u / 1 mod 256) with (d7 * 16 + d8)
    by (subst u; Z.div_mod_to_equations; lia).
  rewrite !hex2_of_digits by assumption. split; reflexivity.
Qed.

Lemma hexRun_four (s r : string) :
  hexRun 4 s = Some r ->
  exists c1 c2 c3 c4,
    s = String c1 (String c2 (String c3 (String c4 r))) /\
    isUpperHex c1 = true /\ isUpperHex c2 = true /\
    isUpperHex c3 = true /\ isUpperHex c4 = true.
Proof.
  destruct s as [| c1 [| c2 [| c3 [| c4 s]]]]; cbn [hexRun];
    repeat match goal with
           | |- context [if isUpperHex ?c then _ else _] =>
               destruct (isUpperHex c) eqn:?
           end;
    try discriminate.
  intros [= ->]. exists c1, c2, c3, c4. repeat split; assumption.
Qed.

(** A string of the documented format splits into its four groups. *)
Lemma wellFormed_groups (s : string) :
  wellFormed s = true ->
  exists u v,
    0 <= u < 2 ^ 32 /\ 0 <= v < 2 ^ 32 /\ s = formatted u v.
Proof.
  unfold wellFormed. intros H.
  destruct (hexRun 4 s) as [[| a s1] |] eqn:E1; try discriminate.
  destruct (Ascii.eqb_spec a "_") as [-> | Hne];
    [| destruct a as [[] [] [] [] [] [] [] []]; (discriminate || congruence)].
  destruct (hexRun 4 s1) as [[| b s2] |] eqn:E2; try discriminate.
  destruct (Ascii.eqb_spec b "_") as [-> | Hne];
    [| destruct b as [[] [] [] [] [] [] [] []]; (discriminate || congruence)].
  destruct (hexRun 4 s2) as [[| c s3] |] eqn:E3; try discriminate.
  destruct (Ascii.eqb_spec c "_") as [-> | Hne];
    [| destruct c as [[] [] [] [] [] [] [] []]; (discriminate || congruence)].
  destruct (hexRun 4 s3) as [[| d s4] |] eqn:E4; try discriminate.
  clear H.
  apply hexRun_four in E1 as (a1 & a2 & a3 & a4 & -> & Ha1 & Ha2 & Ha3 & Ha4).
  apply hexRun_four in E2 as (a5 & a6 & a7 & a8 & -> & Ha5 & Ha6 & Ha7 & Ha8).
  apply hexRun_four in E3 as (b1 & b2 & b3 & b4 & -> & Hb1 & Hb2 & Hb3 & Hb4).
  apply hexRun_four in E4 as (b5 & b6 & b7 & b8 & -> & Hb5 & Hb6 & Hb7 & Hb8).
  destruct (groups_of_digits a1 a2 a3 a4 a5 a6 a7 a8) as (u & Hu & Hu1 & Hu2);
    try assumption.
  destruct (groups_of_digits b1 b2 b3 b4 b5 b6 b7 b8) as (v & Hv & Hv1 & Hv2);
    try assumption.
  exists u, v. split; [exact Hu | split; [exact Hv |]].
  unfold formatted. rewrite Hu1, Hu2, Hv1, Hv2. reflexivity.
Qed.

(** X2.  Every string of the documented format is the code of a pair of
    unsigned 32-bit values. *)
Theorem getFullHMSCode_onto (s : string) :
  wellFormed s = true ->
  exists a c,
    0 <= a < 2 ^ 32 /\ 0 <= c < 2 ^ 32 /\
    getFullHMSCode (ofZ a) (ofZ c) = s.
Proof.
  intros Hs. destruct (wellFormed_groups s Hs) as (u & v & Hu & Hv & ->).
  exists u, v. split; [exact Hu | split; [exact Hv |]].
  rewrite getFullHMSCode_formatted, !low32_ofZ by assumption. reflexivity.
Qed.

Lemma getFullHMSCode_onto_witness :
  wellFormed "0C00_0100_000C_8000" = true /\
  exists a c,
    0 <= a < 2 ^ 32 /\ 0 <= c < 2 ^ 32 /\
    getFullHMSCode (ofZ a) (ofZ c) = "0C00_0100_000C_8000".
Proof.
  assert (H : wellFormed "0C00_0100_000C_8000" = true) by reflexivity.
  split; [exact H | exact (getFullHMSCode_onto _ H)].
Defined.

(** X3.  The code depends on each argument through its truncation modulo
    2^32 only: a fractional part is dropped, and a multiple of 2^32
    added to an integer changes nothing, so that a signed reading of
    a 32-bit value gives the code of the unsigned one. *)
Theorem getFullHMSCode_periodic (p q : Q) (k l : Z) :
  getFullHMSCode (Finite p) (Finite q) =
    getFullHMSCode (ofZ (truncate p + k * 2 ^ 32))
                   (ofZ (truncate q + l * 2 ^ 32)).
Proof.
  rewrite !getFullHMSCode_formatted.
  unfold low32. rewrite !ToInt32_ofZ. cbn [ToInt32].
  rewrite !int32_mod, !Z.mod_add by discriminate.
  reflexivity.
Qed.

(** ** Reading back what [toString(16)] prints *)

Lemma radixDigits_string_of_uint (d : Hexadecimal.uint) :
  radixDigits 16 (NilEmpty.string_of_uint d) = uintDigits d.
Proof.
  induction d; cbn [NilEmpty.string_of_uint uintDigits];
    [reflexivity | ..];
    rewrite <- IHd; reflexivity.
Qed.

Lemma allHex_string_of_uint (d : Hexadecimal.uint) :
  allHex (NilEmpty.string_of_uint d) = true.
Proof.
  induction d; cbn [NilEmpty.string_of_uint allHex];
    [reflexivity | ..];
    rewrite IHd; reflexivity.
Qed.

(** Folding the digits from an accumulator shifts the accumulator by
    the number of digits and adds the value of the numeral. *)
Lemma fold_uintDigits (d : Hexadecimal.uint) (acc : Z) :
  fold_left (fun a x => a * 16 + x) (uintDigits d) acc =
  acc * 16 ^ Z.of_N (Unsigned.usize d) + Z.of_N (Unsigned.of_lu (Hexadecimal.rev d)).
Proof.
  revert acc.
  induction d; intros acc;
    [cbn; lia | ..];
    match goal with
    | |- context [Hexadecimal.rev (?c d)] =>
        change (Hexadecimal.rev (c d))
          with (Hexadecimal.revapp d (c Hexadecimal.Nil))
    end;
    rewrite Unsigned.of_lu_revapp;
    cbn [uintDigits fold_left Unsigned.usize Unsigned.of_lu];
    rewrite IHd;
    rewrite N2Z.inj_succ, Z.pow_succ_r by apply N2Z.is_nonneg;
    rewrite N2Z.inj_add, N2Z.inj_mul, N2Z.inj_pow;
    change (Z.of_N 16) with 16;
    try rewrite N.mul_0_r; try rewrite N.add_0_r;
    cbn [Z.of_N]; ring.
Qed.

Lemma mathInt_uintDigits (d : Hexadecimal.uint) :
  mathInt 16 (uintDigits d) = Z.of_hex_uint d.
Proof.
  unfold mathInt, Z.of_hex_uint.
  rewrite fold_uintDigits, Unsigned.of_uint_alt. lia.
Qed.

(** ** Reading a field of hexadecimal digits *)

Lemma hexChar_not_special (c : ascii) :
  hexChar c = true ->
  isWhiteSpace c = false /\ Ascii.eqb "-" c = false /\
  Ascii.eqb "+" c = false /\ Ascii.eqb "x" c = false /\
  Ascii.eqb "X" c = false.
Proof.
  intros Hc.
  destruct c as [[] [] [] [] [] [] [] []];
    vm_compute in Hc; try discriminate Hc; repeat split.
Qed.

Lemma allHex_no_prefix (s : string) :
  allHex s = true ->
  startsWith s "0x" = false /\ startsWith s "0X" = false.
Proof.
  destruct s as [| c [| c2 r]]; cbn [allHex startsWith]; intros H.
  - split; reflexivity.
  - rewrite !andb_false_r. split; reflexivity.
  - apply andb_true_iff in H as [_ H]. apply andb_true_iff in H as [H _].
    destruct (hexChar_not_special _ H) as (_ & _ & _ & -> & ->).
    rewrite !andb_false_r. split; reflexivity.
Qed.

Lemma radixDigits_hexChar (c : ascii) (s : string) :
  hexChar c = true ->
  exists d, radixDigits 16 (String c s) = d :: radixDigits 16 s.
Proof.
  unfold hexChar. cbn [radixDigits].
  destruct (digitValue c) as [d |]; [| discriminate].
  intros ->. exists d. reflexivity.
Qed.

(** On a non-empty string of hexadecimal digits [parseInt] has nothing
    to trim, no sign and no prefix to take off, and reads every digit. *)
Lemma parseInt_allHex (s : string) :
  allHex s = true -> s <> "" ->
  parseInt s (ofZ 16) = toNumber (hexValue s).
Proof.
  intros Hs Hne. destruct s as [| c r]; [contradiction |].
  destruct (allHex_no_prefix _ Hs) as [Hx HX].
  cbn [allHex] in Hs. apply andb_true_iff in Hs as [Hc Hr].
  destruct (hexChar_not_special _ Hc) as (Hws & Hminus & Hplus & _ & _).
  destruct (radixDigits_hexChar c r Hc) as (d & Hd).
  unfold parseInt, hexValue.
  cbn [trimStart]. rewrite Hws.
  change (ToInt32 (ofZ 16)) with 16.
  cbn [startsWith] in *. rewrite Hminus, Hplus.
  cbn [andb orb negb Z.eqb Z.ltb Z.compare Pos.compare Pos.compare_cont].
  cbn [startsWith]. rewrite Hx, HX. cbn [orb andb Pos.eqb].
  rewrite Hd.
  destruct (mathInt 16 (d :: radixDigits 16 r)); reflexivity.
Qed.

Lemma replace_allHex (s : string) :
  allHex s = true -> replace s "0x" "" = s.
Proof.
  induction s as [| c s IH]; [reflexivity |].
  intros Hs. rewrite replace_cons.
  destruct (allHex_no_prefix _ Hs) as [-> _].
  cbn [allHex] in Hs. apply andb_true_iff in Hs as [_ Hs].
  rewrite IH by exact Hs. reflexivity.
Qed.

Lemma toNumber_small (n : Z) : Z.abs n < 2 ^ 53 -> toNumber n = ofZ n.
Proof.
  intros Hn. unfold toNumber.
  destruct (Z.ltb_spec (Z.abs n) (2 ^ 53)); [reflexivity | lia].
Qed.

Lemma or_else_ofZ (v : Z) : or_else (ofZ v) (ofZ 0) = ofZ v.
Proof. destruct v; reflexivity. Qed.

(** The number read from a field of hexadecimal digits, with an [0x]
    in front of them or without. *)
Lemma codeNum_allHex (a sev : number) (s : string) :
  allHex s = true -> s <> "" -> 0 <= hexValue s < 2 ^ 53 ->
  codeNum (mkHMSError a s sev) = ofZ (hexValue s) /\
  codeNum (mkHMSError a ("0x" ++ s) sev) = ofZ (hexValue s).
Proof.
  intros Hs Hne Hv. unfold codeNum. cbn [code].
  rewrite replace_prefix_0x, replace_allHex by exact Hs.
  rewrite parseInt_allHex, toNumber_small, or_else_ofZ by (assumption || lia).
  split; reflexivity.
Qed.

Lemma digitValue_upper (c : ascii) : digitValue (upper_unit c) = digitValue c.
Proof. destruct c as [[] [] [] [] [] [] [] []]; reflexivity. Qed.

Lemma hexChar_upper (c : ascii) :
  hexChar c = true -> isUpperHex (upper_unit c) = true.
Proof.
  intros Hc.
  destruct c as [[] [] [] [] [] [] [] []];
    vm_compute in Hc; try discriminate Hc; reflexivity.
Qed.

Lemma radixDigits_toUpperCase (R : Z) (s : string) :
  radixDigits R (toUpperCase s) = radixDigits R s.
Proof.
  induction s as [| c s IH]; [reflexivity |].
  cbn [toUpperCase radixDigits]. rewrite digitValue_upper, IH. reflexivity.
Qed.

Lemma length_eight (s : string) :
  String.length s = 8%nat ->
  exists c1 c2 c3 c4 c5 c6 c7 c8,
    s = String c1 (String c2 (String c3 (String c4
          (String c5 (String c6 (String c7 (String c8 ""))))))).
Proof.
  destruct s as [| c1 [| c2 [| c3 [| c4 [| c5 [| c6 [| c7 [| c8 [| c9 s]]]]]]]]];
    try discriminate.
  intros _. exists c1, c2, c3, c4, c5, c6, c7, c8. reflexivity.
Qed.

(** Eight hexadecimal digits of either case denote a 32-bit value whose
    groups are these digits, upper-cased. *)
Lemma eight_digits_value (g : string) :
  allHex g = true -> String.length g = 8%nat ->
  0 <= hexValue g < 2 ^ 32 /\
  group (hexValue g) 3 2 = toUpperCase (substring 0 4 g) /\
  group (hexValue g) 1 0 = toUpperCase (substring 4 4 g).
Proof.
  intros Hg Hlen.
  destruct (length_eight g Hlen)
    as (c1 & c2 & c3 & c4 & c5 & c6 & c7 & c8 & ->).
  cbn [allHex] in Hg.
  repeat (apply andb_true_iff in Hg as [?H Hg]).
  destruct (groups_of_digits (upper_unit c1) (upper_unit c2) (upper_unit c3)
              (upper_unit c4) (upper_unit c5) (upper_unit c6) (upper_unit c7)
              (upper_unit c8)) as (u & Hu & Hhi & Hlo);
    try (apply hexChar_upper; assumption).
  assert (Hval : hexValue
                   (String c1 (String c2 (String c3 (String c4
                      (String c5 (String c6 (String c7 (String c8 ""))))))))
                 = u).
  { rewrite <- (hexValue_groups u Hu), Hhi, Hlo.
    unfold hexValue. cbv [String.append].
    rewrite <- (radixDigits_toUpperCase 16
                  (String c1 (String c2 (String c3 (String c4
                     (String c5 (String c6 (String c7 (String c8 ""))))))))).
    reflexivity. }
  rewrite Hval. split; [exact Hu |]. split; assumption.
Qed.

(** X4.  A code field of eight hexadecimal digits, with [0x] in front or
    without, is shown digit for digit, upper-cased, in the last two
    groups of the code. *)
Theorem code_digits_shown (printerName : string) (a sev : number)
    (g : string) :
  allHex g = true ->
  String.length g = 8%nat ->
  fullHMSCode (renderError printerName (mkHMSError a ("0x" ++ g) sev)) =
    group (low32 a) 3 2 ++ "_" ++ group (low32 a) 1 0 ++ "_"
    ++ toUpperCase (substring 0 4 g) ++ "_" ++ toUpperCase (substring 4 4 g)
  /\
  fullHMSCode (renderError printerName (mkHMSError a g sev)) =
    group (low32 a) 3 2 ++ "_" ++ group (low32 a) 1 0 ++ "_"
    ++ toUpperCase (substring 0 4 g) ++ "_" ++ toUpperCase (substring 4 4 g).
Proof.
  intros Hg Hlen.
  destruct (eight_digits_value g Hg Hlen) as (Hu & Hhi & Hlo).
  assert (Hne : g <> "") by (destruct g; [discriminate | discriminate]).
  destruct (codeNum_allHex a sev g Hg Hne) as [Hplain Hprefixed].
  { change (2 ^ 53) with 9007199254740992.
    change (2 ^ 32) with 4294967296 in Hu. lia. }
  cbn [renderError fullHMSCode attr].
  rewrite Hplain, Hprefixed, getFullHMSCode_formatted, low32_ofZ by exact Hu.
  unfold formatted. rewrite Hhi, Hlo. split; reflexivity.
Qed.

Lemma code_digits_shown_witness :
  allHex "0002000e" = true /\ String.length "0002000e" = 8%nat /\
  fullHMSCode
    (renderError "X1C" (mkHMSError (ofZ 0x05000300) "0x0002000e" (ofZ 2))) =
    group (low32 (ofZ 0x05000300)) 3 2 ++ "_"
    ++ group (low32 (ofZ 0x05000300)) 1 0 ++ "_"
    ++ toUpperCase (substring 0 4 "0002000e") ++ "_"
    ++ toUpperCase (substring 4 4 "0002000e").
Proof.
  assert (Hg : allHex "0002000e" = true) by reflexivity.
  assert (Hlen : String.length "0002000e" = 8%nat) by reflexivity.
  split; [exact Hg | split; [exact Hlen |]].
  exact (proj1 (code_digits_shown "X1C" (ofZ 0x05000300) (ofZ 2)
                  "0002000e" Hg Hlen)).
Defined.

(** ** Every entry of the table can be shown *)


Lemma description_found (printerName : string) (error : HMSError) (d : string) :
  HMS_DESCRIPTIONS !! fullHMSCode (renderError printerName error) = Some d ->
  description (renderError printerName error) = str d.
Proof.
  cbn [renderError description fullHMSCode]. intros Hd.
  rewrite get_formatted, Hd.
  apply HMS_DESCRIPTIONS_nonempty in Hd.
  destruct d; [contradiction | reflexivity].
Qed.





(** ** The shape of the link *)

Lemma allUrlSafe_app (s t : string) :
  allUrlSafe (s ++ t) = allUrlSafe s && allUrlSafe t.
Proof.
  induction s as [| c s IH]; [reflexivity |].
  change (String c s ++ t) with (String c (s ++ t)).
  cbn [allUrlSafe]. rewrite IH, andb_assoc. reflexivity.
Qed.

Lemma length_app (s t : string) :
  String.length (s ++ t) = (String.length s + String.length t)%nat.
Proof.
  induction s as [| c s IH]; [reflexivity |].
  change (String c s ++ t) with (String c (s ++ t)).
  cbn [String.length]. rewrite IH. reflexivity.
Qed.

Lemma isUpperHex_urlSafe (c : ascii) : isUpperHex c = true -> urlSafe c = true.
Proof.
  intros Hc.
  destruct c as [[] [] [] [] [] [] [] []];
    vm_compute in Hc; try discriminate Hc; reflexivity.
Qed.

Lemma allUrlSafe_group (u hi lo : Z) : allUrlSafe (group u hi lo) = true.
Proof.
  unfold group.
  destruct (hex2_upper _ (byteAt_range u hi)) as (c1 & c2 & -> & H1 & H2).
  destruct (hex2_upper _ (byteAt_range u lo)) as (c3 & c4 & -> & H3 & H4).
  apply isUpperHex_urlSafe in H1, H2, H3, H4.
  cbv [String.append allUrlSafe]. rewrite H1, H2, H3, H4. reflexivity.
Qed.

Lemma allUrlSafe_formatted (u v : Z) : allUrlSafe (formatted u v) = true.
Proof.
  unfold formatted. rewrite !allUrlSafe_app, !allUrlSafe_group. reflexivity.
Qed.

(** X6.  Whatever the device name and the numbers are, the link has 75
    characters, starts with the address of the wiki, and is made of
    ASCII letters, digits and [: / . _ -] only: nothing of the device
    name gets into it, and nothing in it needs escaping. *)
Theorem getHMSWikiUrl_shape (attr code : number) (printerName : string) :
  String.length (getHMSWikiUrl attr code printerName) = 75%nat /\
  startsWith (getHMSWikiUrl attr code printerName)
    "https://wiki.bambulab.com/en/" = true /\
  allUrlSafe (getHMSWikiUrl attr code printerName) = true /\
  substring 56 19 (getHMSWikiUrl attr code printerName) =
    getFullHMSCode attr code.
Proof.
  unfold getHMSWikiUrl. rewrite getFullHMSCode_formatted.
  pose proof (formatted_wellFormed (low32 attr) (low32 code)) as [Hlen _].
  pose proof (allUrlSafe_formatted (low32 attr) (low32 code)) as Hsafe.
  set (f := formatted (low32 attr) (low32 code)) in *.
  assert (Hsub : forall s, String.length s = 19%nat -> substring 0 19 s = s).
  { intros s Hs.
    do 19 (destruct s as [| ? s]; [discriminate |]).
    destruct s; [reflexivity | discriminate]. }
  destruct (includes (toLowerCase printerName) "h2").
  - split; [| split; [| split]].
    + rewrite !length_app, Hlen. reflexivity.
    + cbv [String.append]. cbn [startsWith Ascii.eqb Bool.eqb andb].
      first [reflexivity | apply startsWith_empty].
    + rewrite !allUrlSafe_app, Hsafe. reflexivity.
    + cbv [String.append]. cbn [substring]. apply Hsub, Hlen.
  - split; [| split; [| split]].
    + rewrite !length_app, Hlen. reflexivity.
    + cbv [String.append]. cbn [startsWith Ascii.eqb Bool.eqb andb].
      first [reflexivity | apply startsWith_empty].
    + rewrite !allUrlSafe_app, Hsafe. reflexivity.
    + cbv [String.append]. cbn [substring]. apply Hsub, Hlen.
Qed.

(** ** What the modal lists *)

Lemma getSeverityInfo_labels (x : number) :
  In (label (getSeverityInfo x)) ["Fatal"; "Serious"; "Warning"; "Info"].
Proof.
  unfold getSeverityInfo.
  destruct (strict_eq x (ofZ 1)); [cbn; tauto |].
  destruct (strict_eq x (ofZ 2)); [cbn; tauto |].
  destruct (strict_eq x (ofZ 3)); cbn; tauto.
Qed.

Lemma description_nonempty (printerName : string) (error : HMSError) :
  exists d, description (renderError printerName error) = str d /\ d <> "".
Proof.
  destruct (HMS_DESCRIPTIONS !! fullHMSCode (renderError printerName error))
    as [d |] eqn:Hd.
  - exists d. split; [apply description_found, Hd |].
    apply (HMS_DESCRIPTIONS_nonempty _ _ Hd).
  - exists unknown_error. split; [| discriminate].
    cbn [renderError description fullHMSCode] in *.
    rewrite get_formatted, Hd. reflexivity.
Qed.

Lemma displayCode_length (printerName : string) (error : HMSError) :
  String.length (displayCode (renderError printerName error)) = 23%nat.
Proof.
  cbn [renderError displayCode].
  rewrite getFullHMSCode_formatted, replaceAll_formatted. reflexivity.
Qed.

(** X7.  The modal shows the empty state exactly for an empty list, and
    otherwise one entry per error, in the order of the errors; every
    entry has a code of the documented format, a label of 23
    characters, one of the four severity labels, and a description
    that is a non-empty string (never [undefined], never a member
    inherited from [Object.prototype]). *)
Theorem HMSErrorModal_entries (printerName : string) (errors : list HMSError) :
  match body (HMSErrorModal printerName errors) with
  | NoErrors => errors = []
  | ErrorList rows =>
      errors <> [] /\
      rows = map (renderError printerName) errors /\
      length rows = length errors /\
      Forall
        (fun row =>
           wellFormed (fullHMSCode row) = true /\
           String.length (displayCode row) = 23%nat /\
           In (label (row_severity row))
              ["Fatal"; "Serious"; "Warning"; "Info"] /\
           exists d, description row = str d /\ d <> "")
        rows
  end.
Proof.
  destruct errors as [| e errors]; [reflexivity |].
  cbn [HMSErrorModal body].
  split; [discriminate |]. split; [reflexivity |].
  split; [apply length_map |].
  apply List.Forall_forall. intros row Hrow.
  apply List.in_map_iff in Hrow as (e' & <- & _).
  split; [| split; [| split]].
  - cbn [renderError fullHMSCode]. rewrite getFullHMSCode_formatted.
    apply formatted_wellFormed.
  - apply displayCode_length.
  - apply getSeverityInfo_labels.
  - apply description_nonempty.
Qed.

(** ** The keys of the entries *)

Lemma includes_decimal (d : Decimal.uint) :
  includes (DecimalString.NilEmpty.string_of_uint d) "-" = false.
Proof.
  induction d; cbn [DecimalString.NilEmpty.string_of_uint];
    [reflexivity | ..];
    rewrite includes_cons, IHd; reflexivity.
Qed.

Lemma includes_indexString (i : nat) : includes (indexString i) "-" = false.
Proof.
  unfold indexString, DecimalString.NilZero.string_of_uint.
  destruct (Nat.to_uint i) eqn:E; try reflexivity;
    rewrite <- E; apply includes_decimal.
Qed.

Lemma to_uint_nonnil (i : nat) : Nat.to_uint i <> Decimal.Nil.
Proof.
  intros H.
  pose proof (DecimalNat.Unsigned.to_of (Nat.to_uint i)) as Hn.
  rewrite DecimalNat.Unsigned.of_to, H in Hn. discriminate Hn.
Qed.

Lemma indexString_inj (i j : nat) : indexString i = indexString j -> i = j.
Proof.
  unfold indexString. intros H.
  apply (f_equal DecimalString.NilZero.uint_of_string) in H.
  rewrite !DecimalString.NilZero.usu in H by apply to_uint_nonnil.
  injection H as H. apply DecimalNat.Unsigned.to_uint_inj, H.
Qed.

Lemma includes_hyphen_app (s d : string) : includes (s ++ "-" ++ d) "-" = true.
Proof.
  induction s as [| c s IH].
  - change ("" ++ "-" ++ d) with (String "-" d).
    rewrite includes_cons. cbn [startsWith]. rewrite startsWith_empty.
    reflexivity.
  - change (String c s ++ "-" ++ d) with (String c (s ++ "-" ++ d)).
    rewrite includes_cons, IH. apply orb_true_r.
Qed.

(** The last hyphen of a key parts the code from the index. *)
Lemma hyphen_split (s1 s2 d1 d2 : string) :
  includes d1 "-" = false -> includes d2 "-" = false ->
  s1 ++ "-" ++ d1 = s2 ++ "-" ++ d2 -> s1 = s2 /\ d1 = d2.
Proof.
  intros H1 H2. revert s2.
  induction s1 as [| c s1 IH]; intros [| c2 s2] Heq.
  - change ("" ++ "-" ++ d1) with (String "-" d1) in Heq.
    change ("" ++ "-" ++ d2) with (String "-" d2) in Heq.
    injection Heq as ->. split; reflexivity.
  - change ("" ++ "-" ++ d1) with (String "-" d1) in Heq.
    change (String c2 s2 ++ "-" ++ d2) with (String c2 (s2 ++ "-" ++ d2)) in Heq.
    injection Heq as _ ->. rewrite includes_hyphen_app in H1. discriminate.
  - change ("" ++ "-" ++ d2) with (String "-" d2) in Heq.
    change (String c s1 ++ "-" ++ d1) with (String c (s1 ++ "-" ++ d1)) in Heq.
    injection Heq as _ <-. rewrite includes_hyphen_app in H2. discriminate.
  - change (String c s1 ++ "-" ++ d1) with (String c (s1 ++ "-" ++ d1)) in Heq.
    change (String c2 s2 ++ "-" ++ d2) with (String c2 (s2 ++ "-" ++ d2)) in Heq.
    injection Heq as -> Heq. destruct (IH _ Heq) as [-> ->].
    split; reflexivity.
Qed.

Lemma rowKey_inj (e1 e2 : HMSError) (i j : nat) :
  rowKey e1 i = rowKey e2 j -> code e1 = code e2 /\ i = j.
Proof.
  unfold rowKey. intros Heq.
  apply hyphen_split in Heq as [Hc Hi];
    try apply includes_indexString.
  split; [exact Hc | apply indexString_inj, Hi].
Qed.

(** X8.  The keys of the entries of one rendering are pairwise distinct,
    also when several errors carry the same code, and also when a code
    holds hyphens. *)
Theorem rowKeys_NoDup (errors : list HMSError) :
  NoDup (rowKeys errors) /\ length (rowKeys errors) = length errors.
Proof.
  split; [| apply length_imap].
  apply NoDup_alt. intros i j k Hi Hj.
  unfold rowKeys in Hi, Hj.
  rewrite list_lookup_imap in Hi, Hj.
  destruct (errors !! i) as [ei |]; [| discriminate].
  destruct (errors !! j) as [ej |]; [| discriminate].
  cbn in Hi, Hj. injection Hi as Hi. injection Hj as Hj.
  rewrite <- Hj in Hi. apply rowKey_inj in Hi as [_ Hi]. exact Hi.
Qed.

Example rowKeys_same_code :
  rowKeys [mkHMSError (ofZ 1) "0x1" (ofZ 1); mkHMSError (ofZ 1) "0x1" (ofZ 1);
           mkHMSError (ofZ 1) "0x1-1" (ofZ 1)] =
  ["0x1-0"; "0x1-1"; "0x1-1-2"].
Proof. reflexivity. Qed.

(** ** Reading back what the formatter's [toString(16)] prints *)

Lemma parseInt_minus_allHex (s : string) :
  allHex s = true -> s <> "" ->
  parseInt (String "-" s) (ofZ 16) = toNumber (- hexValue s).
Proof.
  intros Hs Hne. destruct s as [| c r]; [contradiction |].
  destruct (allHex_no_prefix _ Hs) as [Hx HX].
  cbn [allHex] in Hs. apply andb_true_iff in Hs as [Hc Hr].
  destruct (radixDigits_hexChar c r Hc) as (d & Hd).
  unfold parseInt, hexValue.
  change (trimStart (String "-" (String c r))) with (String "-" (String c r)).
  change (ToInt32 (ofZ 16)) with 16.
  change (startsWith (String "-" (String c r)) "-")
    with (true && startsWith (String c r) "").
  change (startsWith (String "-" (String c r)) "+") with false.
  rewrite startsWith_empty.
  cbn [andb orb negb Z.eqb Z.ltb Z.compare Pos.compare Pos.compare_cont drop].
  rewrite Hx, HX. cbn [orb andb Pos.eqb].
  rewrite Hd.
  destruct (mathInt 16 (d :: radixDigits 16 r)); reflexivity.
Qed.

Lemma replace_minus_allHex (s : string) :
  allHex s = true -> replace (String "-" s) "0x" "" = String "-" s.
Proof.
  intros Hs. rewrite replace_cons, replace_allHex by exact Hs. reflexivity.
Qed.

Lemma toString_16_pos (p : positive) :
  toString_16 (Z.pos p) = NilEmpty.string_of_uint (Pos.to_hex_uint p) /\
  toString_16 (Z.neg p) =
    String "-" (NilEmpty.string_of_uint (Pos.to_hex_uint p)) /\
  NilEmpty.string_of_uint (Pos.to_hex_uint p) <> "".
Proof.
  unfold toString_16. cbn [Z.to_hex_int NilZero.string_of_int].
  pose proof (Unsigned.to_uint_nonnil p) as Hnil.
  destruct (Pos.to_hex_uint p); try contradiction;
    repeat split; discriminate.
Qed.

Lemma hexValue_to_hex_uint (p : positive) :
  hexValue (NilEmpty.string_of_uint (Pos.to_hex_uint p)) = Z.pos p.
Proof.
  unfold hexValue.
  rewrite radixDigits_string_of_uint, mathInt_uintDigits.
  unfold Z.of_hex_uint. rewrite Unsigned.of_to. reflexivity.
Qed.

(** X9.  The parser of the code field reads back what the formatter's
    [toString(16)] prints: for an integer of magnitude below 2^53
    printed in base 16 (with its minus sign when negative) the number
    that is read is that integer, and the last two groups of the code
    are those of its residue modulo 2^32. *)
Theorem codeNum_toString_16 (printerName : string) (a sev : number) (z : Z) :
  - 2 ^ 53 < z < 2 ^ 53 ->
  codeNum (mkHMSError a (toString_16 z) sev) = ofZ z /\
  fullHMSCode (renderError printerName (mkHMSError a (toString_16 z) sev)) =
    formatted (low32 a) (z mod 2 ^ 32).
Proof.
  intros Hz.
  assert (Hnum : codeNum (mkHMSError a (toString_16 z) sev) = ofZ z).
  { destruct z as [| p | p].
    - reflexivity.
    - destruct (toString_16_pos p) as (-> & _ & Hne).
      destruct (codeNum_allHex a sev
                  (NilEmpty.string_of_uint (Pos.to_hex_uint p))) as [H _];
        try (rewrite hexValue_to_hex_uint in *);
        [apply allHex_string_of_uint | exact Hne | lia | exact H].
    - destruct (toString_16_pos p) as (_ & -> & Hne).
      unfold codeNum. cbn [code].
      rewrite replace_minus_allHex, parseInt_minus_allHex,
        hexValue_to_hex_uint
        by (apply allHex_string_of_uint || exact Hne).
      rewrite toNumber_small by lia.
      apply or_else_ofZ. }
  split; [exact Hnum |].
  cbn [renderError fullHMSCode attr].
  rewrite Hnum, getFullHMSCode_formatted.
  unfold low32 at 2. rewrite ToInt32_ofZ, int32_mod. reflexivity.
Qed.

Lemma codeNum_toString_16_witness :
  - 2 ^ 53 < -171 < 2 ^ 53 /\
  codeNum (mkHMSError (ofZ 0) (toString_16 (-171)) (ofZ 1)) = ofZ (-171) /\
  fullHMSCode
    (renderError "X1C" (mkHMSError (ofZ 0) (toString_16 (-171)) (ofZ 1))) =
    formatted (low32 (ofZ 0)) (-171 mod 2 ^ 32).
Proof.
  assert (Hz : - 2 ^ 53 < -171 < 2 ^ 53) by lia.
  split; [exact Hz |].
  exact (codeNum_toString_16 "X1C" (ofZ 0) (ofZ 1) (-171) Hz).
Defined.

(** ** The life of the listener *)

(** ** The life of the listener *)

Lemma same_fresh (h : nat) (ty : string) (cap : bool) (window : list listener) :
  fresh h window -> existsb (same ty h cap) window = false.
Proof.
  induction 1 as [| l ls Hl _ IH]; [reflexivity |].
  cbn [existsb]. rewrite IH, orb_false_r. unfold same.
  apply Nat.eqb_neq in Hl. rewrite Hl, andb_false_r. reflexivity.
Qed.

Lemma removeEventListener_fresh (h : nat) (window later : list listener) :
  fresh h window ->
  removeEventListener (window ++ mkListener "keydown" h false :: later)%list
    "keydown" h = (window ++ later)%list.
Proof.
  induction 1 as [| l ls Hl _ IH].
  - cbn [app removeEventListener]. unfold same. cbn [evType callback capture].
    rewrite Nat.eqb_refl. reflexivity.
  - cbn [app removeEventListener]. unfold same at 1.
    apply Nat.eqb_neq in Hl. rewrite Hl, andb_false_r. cbn [andb].
    rewrite IH. reflexivity.
Qed.



(** X10.  Setting the effect up and cleaning it up leaves the listeners of
    the window as they were, whatever was registered before, and
    whatever others registered in between. *)
Theorem effect_restores_window (h : nat) (window later : list listener) :
  fresh h window ->
  effectSetup h window = (window ++ [mkListener "keydown" h false])%list /\
  effectCleanup h (effectSetup h window) = window /\
  effectCleanup h (effectSetup h window ++ later)%list
    = (window ++ later)%list.
Proof.
  intros Hfresh. unfold effectSetup, effectCleanup, addEventListener.
  rewrite (same_fresh h "keydown" false window Hfresh).
  split; [reflexivity |]. split.
  - rewrite (removeEventListener_fresh h window [] Hfresh).
    apply app_nil_r.
  - rewrite <- app_assoc. apply (removeEventListener_fresh h _ _ Hfresh).
Qed.

Lemma effect_restores_window_witness :
  fresh 7 [mkListener "keydown" 3 false; mkListener "resize" 4 true] /\
  effectCleanup 7
    (effectSetup 7 [mkListener "keydown" 3 false; mkListener "resize" 4 true])
  = [mkListener "keydown" 3 false; mkListener "resize" 4 true].
Proof.
  assert (Hfresh :
    fresh 7 [mkListener "keydown" 3 false; mkListener "resize" 4 true]).
  { repeat constructor; cbn; lia. }
  split; [exact Hfresh |].
  exact (proj1 (proj2 (effect_restores_window 7 _ [] Hfresh))).
Defined.



Example window_events :
  onWindowEvent 7 (effectSetup 7 [mkListener "keydown" 3 false])
    "keydown" (mkKeyboardEvent "Escape") = [OnClose] /\
  onWindowEvent 7 (effectSetup 7 [mkListener "keydown" 3 false])
    "keyup" (mkKeyboardEvent "Escape") = [] /\
  onWindowEvent 7 (effectSetup 7 [mkListener "keydown" 3 false])
    "keydown" (mkKeyboardEvent "Enter") = [].
Proof. repeat split. Qed.
